(** * AI Product Description Generator (app.py): a shallow embedding

    The program is one Streamlit script.  It reads a form, parses the
    free-text attribute lines into a dict, asks a chat-completion
    endpoint for a description and then asks it again for a JSON
    judgment of that description.

    Python values are modelled as follows.
    - A [str] is the list of its Unicode code points.
    - A [dict] is an association list in insertion order (the order
      [items()] iterates in), with at most one entry per key.
    - A call that can raise returns a [result]; the script itself runs
      in a small monad that also records, in order, the effects it
      performs on the outside world (Streamlit calls, the construction
      of the API client, completion requests).
    - An [exn] is an instance of [Exception], which is what the two
      [except Exception] clauses catch.

    The import fallback at the top of the file (pip install on
    [ImportError]) and [load_dotenv()] are not modelled: the script
    starts from what [os.environ.get] returns. *)

From Stdlib Require Import List NArith ZArith String Ascii Bool Lia.
From Stdlib Require Import DecimalString.
Import ListNotations.

Set Implicit Arguments.

(** ** Python strings *)

Definition str := list N.

(** The code points of an ASCII literal. *)
Definition lit (x : string) : str :=
  List.map N_of_ascii (list_ascii_of_string x).

Definition nl : str := [10%N].
Definition colon : N := 58%N.
Definition newline : N := 10%N.

Fixpoint str_eqb (a b : str) : bool :=
  match a, b with
  | [], [] => true
  | x :: a', y :: b' => N.eqb x y && str_eqb a' b'
  | _, _ => false
  end.

(** [str.isspace] on one code point: the characters [str.strip()]
    removes when called without an argument. *)
Definition isspace (c : N) : bool :=
  ((9 <=? c) && (c <=? 13) || (28 <=? c) && (c <=? 32)
   || (c =? 133) || (c =? 160) || (c =? 5760)
   || (8192 <=? c) && (c <=? 8202)
   || (c =? 8232) || (c =? 8233) || (c =? 8239) || (c =? 8287)
   || (c =? 12288))%N.

Fixpoint lstrip (s : str) : str :=
  match s with
  | [] => []
  | c :: t => if isspace c then lstrip t else s
  end.

Definition rstrip (s : str) : str := rev (lstrip (rev s)).

(** [s.strip()] *)
Definition strip (s : str) : str := rstrip (lstrip s).

(** [sep in s] for a one-character [sep] *)
Definition contains_char (sep : N) (s : str) : bool :=
  existsb (N.eqb sep) s.

(** [s.find(sep)] for a one-character [sep] *)
Fixpoint find_char (sep : N) (s : str) : option nat :=
  match s with
  | [] => None
  | c :: t => if N.eqb c sep then Some 0 else option_map S (find_char sep t)
  end.

(** [s.split(sep)] for a one-character [sep]: never empty. *)
Fixpoint split_char (sep : N) (s : str) : list str :=
  match s with
  | [] => [[]]
  | c :: t =>
      if N.eqb c sep then [] :: split_char sep t
      else match split_char sep t with
           | h :: r => (c :: h) :: r
           | [] => [[c]]
           end
  end.

(** [s.split(sep, 1)]: the slices around the first [sep], or [s] alone. *)
Definition split_max1 (sep : N) (s : str) : list str :=
  match find_char sep s with
  | None => [s]
  | Some i => [firstn i s; skipn (S i) s]
  end.

(** [sep.join(parts)] *)
Fixpoint join (sep : str) (parts : list str) : str :=
  match parts with
  | [] => []
  | [p] => p
  | p :: rest => p ++ sep ++ join sep rest
  end.

(** [hay.startswith(needle)] *)
Fixpoint startswith (hay needle : str) {struct needle} : bool :=
  match needle, hay with
  | [], _ => true
  | x :: n', y :: h' => N.eqb x y && startswith h' n'
  | _ :: _, [] => false
  end.

(** [needle in hay] *)
Fixpoint contains (hay needle : str) : bool :=
  startswith hay needle ||
  match hay with
  | [] => false
  | _ :: h' => contains h' needle
  end.

(** [hay.endswith(needle)] *)
Definition endswith (hay needle : str) : bool :=
  startswith (rev hay) (rev needle).

(** ** Exceptions and results *)

(** An instance of [Exception]: its class name and [str(e)]. *)
Record exn := Exception { exn_class : string; exn_str : str }.

Inductive result (A : Type) : Type :=
| Ok (a : A)
| Raise (e : exn).
Arguments Ok {A} a.
Arguments Raise {A} e.

(** ** Python dicts *)

Definition dict (V : Type) := list (str * V).

Fixpoint dict_get {V} (k : str) (d : dict V) : option V :=
  match d with
  | [] => None
  | (k', v) :: r => if str_eqb k k' then Some v else dict_get k r
  end.

(** [d[k] = v]: an existing key keeps its place, a new one goes last. *)
Fixpoint dict_set {V} (k : str) (v : V) (d : dict V) : dict V :=
  match d with
  | [] => [(k, v)]
  | (k', v') :: r =>
      if str_eqb k k' then (k', v) :: r else (k', v') :: dict_set k v r
  end.

Definition keys {V} (d : dict V) : list str := List.map fst d.

(** ** The attribute parser (the loop under [if generate_btn:]) *)

(** One iteration of the loop body. *)
Definition parse_line (attributes : dict str) (line : str)
  : result (dict str) :=
  if contains_char colon line then
    match split_max1 colon line with
    | [key; val] => Ok (dict_set (strip key) (strip val) attributes)
    | _ =>
        Raise (Exception "ValueError"
                 (lit "not enough values to unpack (expected 2, got 1)"))
    end
  else Ok attributes.

Fixpoint parse_lines (attributes : dict str) (lines : list str)
  : result (dict str) :=
  match lines with
  | [] => Ok attributes
  | line :: rest =>
      match parse_line attributes line with
      | Ok attributes' => parse_lines attributes' rest
      | Raise e => Raise e
      end
  end.

Definition parse_attributes (attr_input : str) : result (dict str) :=
  parse_lines [] (split_char newline attr_input).

(** *** The parser as the specification words it *)

(** The substring before the first [sep]. *)
Fixpoint before_first (sep : N) (s : str) : str :=
  match s with
  | [] => []
  | c :: t => if N.eqb c sep then [] else c :: before_first sep t
  end.

(** The remainder after the first [sep]. *)
Fixpoint after_first (sep : N) (s : str) : str :=
  match s with
  | [] => []
  | c :: t => if N.eqb c sep then t else after_first sep t
  end.

(** One (key, value) pair per line that contains a colon, in line order. *)
Definition line_entries (lines : list str) : list (str * str) :=
  List.map
    (fun line => (strip (before_first colon line),
                  strip (after_first colon line)))
    (filter (contains_char colon) lines).

Definition spec_entries (text : str) : list (str * str) :=
  line_entries (split_char newline text).

(** Both sides of an entry are their own [strip]. *)
Definition trimmed (kv : str * str) : Prop :=
  strip (fst kv) = fst kv /\ strip (snd kv) = snd kv.

(** [x] neither starts nor ends with a whitespace character. *)
Definition no_outer_space (x : str) : bool :=
  match x with
  | [] => true
  | c :: _ => negb (isspace c) && negb (isspace (last x c))
  end.

(** [x] is [s] without its leading and trailing whitespace: [s] is
    whitespace, then [x], then whitespace, and [x] has none at either
    end. *)
Definition is_trim_of (x s : str) : Prop :=
  exists l r,
    s = l ++ x ++ r
    /\ forallb isspace l = true
    /\ forallb isspace r = true
    /\ no_outer_space x = true.

Definition example_input : str :=
  lit "Color: Blue" ++ nl ++ lit "Battery" ++ nl ++
  lit "Size: 10 in" ++ nl ++ lit "Color: Red".

(** The value of the last pair with key [k]. *)
Fixpoint last_value (k : str) (es : list (str * str)) : option str :=
  match es with
  | [] => None
  | (k', v) :: r =>
      match last_value k r with
      | Some w => Some w
      | None => if str_eqb k k' then Some v else None
      end
  end.

(** ** JSON-like Python values

    What [json.loads] can return and [json.dumps] can take.  A float is
    kept as a decimal literal that denotes it; the program never
    computes with one. *)

#[local] Set Warnings "-register-all".
Inductive pyval : Type :=
| PNone
| PBool (b : bool)
| PInt (n : Z)
| PFloat (literal : str)
| PStr (s : str)
| PList (xs : list pyval)
| PDict (d : list (str * pyval)).

Definition type_name (v : pyval) : string :=
  match v with
  | PNone => "NoneType"
  | PBool _ => "bool"
  | PInt _ => "int"
  | PFloat _ => "float"
  | PStr _ => "str"
  | PList _ => "list"
  | PDict _ => "dict"
  end.

Definition squote : str := [39%N].
Definition dquote : str := [34%N].

(** [v.get(k)]: only a dict has the method. *)
Definition method_get (v : pyval) (k : str) : result pyval :=
  match v with
  | PDict d =>
      Ok (match dict_get k d with Some x => x | None => PNone end)
  | _ =>
      Raise (Exception "AttributeError"
               (squote ++ lit (type_name v) ++ squote ++
                lit " object has no attribute " ++
                squote ++ lit "get" ++ squote))
  end.

(** [v == s] for a string [s] *)
Definition eq_str (v : pyval) (s : str) : bool :=
  match v with
  | PStr s' => str_eqb s' s
  | _ => false
  end.

(** How an f-string renders an [Optional[str]]. *)
Definition format_opt (o : option str) : str :=
  match o with
  | Some s => s
  | None => lit "None"
  end.

(** ** The product record *)

Record ProductInput := {
  name : str;
  category : str;
  attributes : dict str;
  tone : option str
}.

(** [product.model_dump()] *)
Definition model_dump (p : ProductInput) : pyval :=
  PDict [ (lit "name", PStr (name p));
          (lit "category", PStr (category p));
          (lit "attributes",
            PDict (List.map (fun kv => (fst kv, PStr (snd kv)))
                     (attributes p)));
          (lit "tone",
            match tone p with Some t => PStr t | None => PNone end) ].

(** ** The chat-completion interface *)

Record message := { role : str; content : str }.

Record request := {
  model : str;
  messages : list message;
  temperature : option string;          (* a decimal literal *)
  response_format : option (dict str)
}.

Record chat_message := { message_content : option str }.
Record choice := { choice_message : chat_message }.
Record response := { choices : list choice }.

(** [response.choices[0]] *)
Definition first_choice (r : response) : result choice :=
  match choices r with
  | c :: _ => Ok c
  | [] => Raise (Exception "IndexError" (lit "list index out of range"))
  end.

(** ** Effects *)

Inductive event : Type :=
| StCall (fn : string) (args : list str)
| ClientCreated (base_url api_key : str)
| CompletionRequest (r : request).

(** How a computation ends: with a value, with an exception, or by
    [st.stop()], which ends the script run and is no [Exception]. *)
Inductive outcome (A : Type) : Type :=
| Returned (a : A)
| Raised (e : exn)
| Halted.
Arguments Returned {A} a.
Arguments Raised {A} e.
Arguments Halted {A}.

Definition M (A : Type) : Type := list event -> outcome A * list event.

Definition ret {A} (a : A) : M A := fun w => (Returned a, w).

Definition bind {A B} (m : M A) (k : A -> M B) : M B :=
  fun w =>
    match m w with
    | (Returned a, w') => k a w'
    | (Raised e, w') => (Raised e, w')
    | (Halted, w') => (Halted, w')
    end.

Declare Scope py_scope.
Delimit Scope py_scope with py.
Notation "x <- m ;; k" := (bind m (fun x => k))
  (at level 61, m at next level, right associativity) : py_scope.
Notation "m ;; k" := (bind m (fun _ => k))
  (at level 61, right associativity) : py_scope.
Open Scope py_scope.

Definition emit (ev : event) : M unit := fun w => (Returned tt, w ++ [ev]).

Definition raise {A} (e : exn) : M A := fun w => (Raised e, w).

Definition lift {A} (r : result A) : M A :=
  match r with
  | Ok a => ret a
  | Raise e => raise e
  end.

(** [try: body / except Exception as e: handler e] *)
Definition try_except {A} (body : M A) (handler : exn -> M A) : M A :=
  fun w =>
    match body w with
    | (Raised e, w') => handler e w'
    | r => r
    end.

(** A Streamlit display call. *)
Definition st (fn : string) (args : list str) : M unit :=
  emit (StCall fn args).

(** A Streamlit input widget: rendered, and read as the user left it. *)
Definition widget {A} (fn : string) (label : str) (value : A) : M A :=
  st fn [label] ;; ret value.

(** [st.stop()] *)
Definition st_stop {A} : M A :=
  fun w => (Halted, w ++ [StCall "stop" []]).

Definition run {A} (m : M A) : outcome A * list event := m [].

(** The completion requests among the effects. *)
Definition requests (w : list event) : list request :=
  flat_map (fun ev => match ev with CompletionRequest r => [r] | _ => [] end)
    w.

Definition client_created (ev : event) : bool :=
  match ev with ClientCreated _ _ => true | _ => false end.

(** ** The prompt builder *)

Definition base_prompts : dict str :=
  [ (lit "Electronics",
      lit "You are a tech copywriter. Focus on specifications, performance, and compatibility.");
    (lit "Fashion",
      lit "You are a fashion stylist. Focus on fabric feel, fit, and occasion.");
    (lit "Home & Kitchen",
      lit "You are an interior designer. Focus on aesthetics, durability, and usage.");
    (lit "General",
      lit "You are a professional copywriter. Focus on benefits and value proposition.") ].

(** [d.get(k, default)] *)
Definition get_default {V} (d : dict V) (k : str) (default : V) : V :=
  match dict_get k d with
  | Some v => v
  | None => default
  end.

(** [base_prompts["General"]]: the literal above holds the key, so the
    subscript cannot raise [KeyError]. *)
Definition general_prompt : str :=
  match dict_get (lit "General") base_prompts with
  | Some p => p
  | None => []
  end.

Definition get_system_prompt (category : str) (tone : option str) : str :=
  let selected_prompt := get_default base_prompts category general_prompt in
  selected_prompt ++ lit " Write in a " ++ format_opt tone ++
  lit " tone. Do not invent features not listed.".

Definition indent : str := lit "    ".

(** The f-string bound to [user_message] in [generate_description]. *)
Definition description_user_message (product : ProductInput) : str :=
  let specs_text :=
    join nl (List.map (fun kv => lit "- " ++ fst kv ++ lit ": " ++ snd kv)
               (attributes product)) in
  nl ++ indent ++ lit "Product Name: " ++ name product ++
  nl ++ indent ++ lit "Category: " ++ category product ++
  nl ++ indent ++ lit "Features:" ++
  nl ++ indent ++ specs_text ++
  nl ++ indent.

Definition chat_model : str := lit "llama-3.3-70b-versatile".

(** The keyword arguments of the [create] call in
    [generate_description]. *)
Definition description_request (product : ProductInput) : request :=
  {| model := chat_model;
     messages :=
       [ {| role := lit "system";
            content := get_system_prompt (category product) (tone product) |};
         {| role := lit "user";
            content := description_user_message product |} ];
     temperature := Some "0.7"%string;
     response_format := None |}.

(** The string bound to [system_prompt] in [evaluate_quality]. *)
Definition evaluation_system_prompt : str :=
  nl ++ indent ++
  lit "You are a Quality Assurance AI. Compare the input data to the generated description." ++
  nl ++ indent ++ lit "Return a valid JSON object with these keys:" ++
  nl ++ indent ++ lit "- " ++ dquote ++ lit "score" ++ dquote ++
    lit ": (integer 1-10)" ++
  nl ++ indent ++ lit "- " ++ dquote ++ lit "consistency_check" ++ dquote ++
    lit ": (string) " ++ dquote ++ lit "Pass" ++ dquote ++
    lit " if all input facts are present, else " ++
    dquote ++ lit "Fail" ++ dquote ++ lit "." ++
  nl ++ indent ++ lit "- " ++ dquote ++ lit "tone_feedback" ++ dquote ++
    lit ": (string) Brief comment on the tone." ++
  nl ++ indent.

(** The dict [evaluate_quality] returns from its [except] branch. *)
Definition error_result (e : exn) : pyval :=
  PDict [ (lit "score", PInt 0);
          (lit "consistency_check", PStr (lit "Error"));
          (lit "tone_feedback", PStr (exn_str e)) ].

(** ** The two clients and the script

    The collaborators the program reaches through libraries are
    parameters: the completion endpoint behind
    [client.chat.completions.create], [json.loads], [json.dumps] and
    the [repr] that [str()] falls back on for floats and containers.
    A failed request is an [Exception] raised by [create]. *)

Section Program.

Variable create : request -> result response.
Variable json_loads : str -> result pyval.
Variable json_dumps : pyval -> str.
Variable py_repr : pyval -> str.

(** [client.chat.completions.create(...)]: the request goes out, then
    the reply or the failure comes back. *)
Definition chat_completions_create (r : request) : M response :=
  emit (CompletionRequest r) ;; lift (create r).

(** [json.loads(x)] on what [message.content] may hold. *)
Definition json_loads_content (x : option str) : result pyval :=
  match x with
  | Some s => json_loads s
  | None =>
      Raise (Exception "TypeError"
               (lit "the JSON object must be str, bytes or bytearray, not NoneType"))
  end.

(** [str(v)], as an f-string renders [v]. *)
Definition py_str (v : pyval) : str :=
  match v with
  | PNone => lit "None"
  | PBool true => lit "True"
  | PBool false => lit "False"
  | PInt n => lit (DecimalString.NilZero.string_of_int (Z.to_int n))
  | PStr s => s
  | _ => py_repr v
  end.

Definition generate_description (product : ProductInput) : M (option str) :=
  try_except
    (response <- chat_completions_create (description_request product) ;;
     c <- lift (first_choice response) ;;
     ret (message_content (choice_message c)))
    (fun e => ret (Some (lit "Error: " ++ exn_str e))).

Definition evaluation_user_message (input_data : pyval)
    (generated_text : option str) : str :=
  nl ++ indent ++ lit "INPUT DATA: " ++ json_dumps input_data ++
  nl ++ indent ++ lit "GENERATED TEXT: " ++ format_opt generated_text ++
  nl ++ indent.

(** The keyword arguments of the [create] call in [evaluate_quality]. *)
Definition evaluation_request (input_data : pyval)
    (generated_text : option str) : request :=
  {| model := chat_model;
     messages :=
       [ {| role := lit "system"; content := evaluation_system_prompt |};
         {| role := lit "user";
            content := evaluation_user_message input_data generated_text |} ];
     temperature := None;
     response_format := Some [(lit "type", lit "json_object")] |}.

Definition evaluate_quality (input_data : pyval)
    (generated_text : option str) : M pyval :=
  try_except
    (response <- chat_completions_create
                   (evaluation_request input_data generated_text) ;;
     c <- lift (first_choice response) ;;
     lift (json_loads_content (message_content (choice_message c))))
    (fun e => ret (error_result e)).

(** *** The script, top to bottom *)

(** What the user left in the sidebar widgets. *)
Record Form := {
  ui_cat : str;
  ui_p_name : str;
  ui_attr_input : str;
  ui_tone : str;
  ui_generate_btn : bool
}.

Definition missing_key_message : str :=
  [128680%N] ++
  lit " GROQ_API_KEY is missing! Please create a .env file with your key.".

Definition default_attr_input : str :=
  lit "Color: Midnight Blue" ++ nl ++ lit "Noise Cancellation: Active" ++
  nl ++ lit "Battery: 30 Hours".

(** One run of the script; [environ_get] is what
    [os.environ.get("GROQ_API_KEY")] returns after [load_dotenv()]. *)
Definition app (environ_get : option str) (form : Form) : M unit :=
  st "set_page_config" [lit "AI Product Describer"; lit "wide"] ;;
  api_key <- match environ_get with
             | Some (c :: k) => ret (c :: k)
             | _ (* not api_key *) =>
                 st "error" [missing_key_message] ;; st_stop
             end ;;
  emit (ClientCreated (lit "https://api.groq.com/openai/v1") api_key) ;;
  st "title" [[128717%N; 65039%N] ++ lit " AI Product Description Generator"] ;;
  st "header" [lit "Product Details"] ;;
  cat <- widget "selectbox" (lit "Category") (ui_cat form) ;;
  p_name <- widget "text_input" (lit "Product Name") (ui_p_name form) ;;
  st "subheader" [lit "Attributes"] ;;
  attr_input <- widget "text_area" (lit "Features (Format: Key: Value)")
                  (ui_attr_input form) ;;
  tone <- widget "select_slider" (lit "Tone") (ui_tone form) ;;
  generate_btn <- widget "button"
                    ([10024%N] ++ lit " Generate Description")
                    (ui_generate_btn form) ;;
  if generate_btn : bool then
    attributes <- lift (parse_attributes attr_input) ;;
    let product_data :=
      {| name := p_name; category := cat;
         attributes := attributes; tone := Some tone |} in
    st "spinner" [lit "Drafting copy..."] ;;
    description <- generate_description product_data ;;
    st "columns" [] ;;
    st "subheader" [lit "Generated Description"] ;;
    st "markdown" [lit "> " ++ format_opt description] ;;
    st "subheader" [lit "Quality Score"] ;;
    st "spinner" [lit "Evaluating..."] ;;
    eval_result <- evaluate_quality (model_dump product_data) description ;;
    score <- lift (method_get eval_result (lit "score")) ;;
    st "metric" [lit "Consistency Score"; py_str score ++ lit "/10"] ;;
    check <- lift (method_get eval_result (lit "consistency_check")) ;;
    (if eq_str check (lit "Pass")
     then st "success" [[9989%N] ++ lit " Specs Match"]
     else st "error" [[10060%N] ++ lit " Missing Info"]) ;;
    tone_feedback <- lift (method_get eval_result (lit "tone_feedback")) ;;
    st "info" [lit "**Tone:** " ++ py_str tone_feedback]
  else ret tt.

End Program.

(** ** The [json] module

    [Json.loads] and [Json.dumps] follow CPython 3.11 on a [str]
    argument and on the values of [pyval], with the default options.
    The decoder does not bound the nesting depth, where CPython gives
    up with a [RecursionError] past its recursion limit.  Its loops are
    counted down from the length of the text, which they never use up:
    each round consumes a character. *)

Module Json.

Definition dec (n : nat) : str :=
  lit (NilZero.string_of_uint (Nat.to_uint n)).

(** [JSONDecodeError(msg, doc, pos)] *)
Definition JSONDecodeError (msg : string) (doc : str) (pos : nat) : exn :=
  let before := split_char newline (firstn pos doc) in
  let lineno := List.length before in
  let colno := S (List.length (last before [])) in
  Exception "JSONDecodeError"
    (lit msg ++ lit ": line " ++ dec lineno ++ lit " column " ++ dec colno ++
     lit " (char " ++ dec pos ++ lit ")").

Definition is_ws (c : N) : bool :=
  ((c =? 32) || (c =? 9) || (c =? 10) || (c =? 13))%N.

Fixpoint skip_ws (s : str) : str :=
  match s with
  | c :: t => if is_ws c then skip_ws t else s
  | [] => []
  end.

Definition is_digit (c : N) : bool := ((48 <=? c) && (c <=? 57))%N.

Definition hex_digit (c : N) : option N :=
  (if (48 <=? c) && (c <=? 57) then Some (c - 48)
   else if (97 <=? c) && (c <=? 102) then Some (c - 87)
   else if (65 <=? c) && (c <=? 70) then Some (c - 55)
   else None)%N.

(** Four hex digits with at least one character after them. *)
Definition hex4 (s : str) : option (N * str) :=
  match s with
  | a :: b :: c :: d :: (_ :: _) as t =>
      match hex_digit a, hex_digit b, hex_digit c, hex_digit d with
      | Some x, Some y, Some z, Some w =>
          Some (((x * 16 + y) * 16 + z) * 16 + w, t)%N
      | _, _, _, _ => None
      end
  | _ => None
  end.

(** A low surrogate escape right after the high surrogate [u]. *)
Definition surrogate_pair (u : N) (s : str) : option (N * str) :=
  if ((55296 <=? u) && (u <=? 56319))%N then
    match s with
    | 92%N :: 117%N :: s' =>
        match hex4 s' with
        | Some (u2, t) =>
            if ((56320 <=? u2) && (u2 <=? 57343))%N
            then Some (65536 + N.lor (N.shiftl (u - 55296) 10) (u2 - 56320), t)%N
            else None
        | None => None
        end
    | _ => None
    end
  else None.

Definition unescape (e : N) : option N :=
  (if e =? 34 then Some 34          (* quote *)
   else if e =? 92 then Some 92     (* backslash *)
   else if e =? 47 then Some 47     (* slash *)
   else if e =? 98 then Some 8      (* b *)
   else if e =? 102 then Some 12    (* f *)
   else if e =? 110 then Some 10    (* n *)
   else if e =? 114 then Some 13    (* r *)
   else if e =? 116 then Some 9     (* t *)
   else None)%N.

Fixpoint span_digits (s : str) : str * str :=
  match s with
  | c :: t =>
      if is_digit c then let (ds, r) := span_digits t in (c :: ds, r)
      else ([], s)
  | [] => ([], [])
  end.

Definition digits_value (ds : str) : Z :=
  fold_left (fun acc c => (acc * 10 + Z.of_N (c - 48))%Z) ds 0%Z.

(** The number grammar: the integer part, the fraction and exponent
    (empty for an integer), the rest. *)
Definition match_number (s : str) : option (bool * str * str * str) :=
  let (neg, s1) :=
    match s with
    | 45%N :: t => (true, t)
    | _ => (false, s)
    end in
  let int_part :=
    match s1 with
    | 48%N :: t => Some ([48%N], t)
    | c :: t =>
        if is_digit c then let (ds, r) := span_digits t in Some (c :: ds, r)
        else None
    | [] => None
    end in
  match int_part with
  | None => None
  | Some (ds, s2) =>
      let (frac, s3) :=
        match s2 with
        | 46%N :: c :: t =>
            if is_digit c
            then let (fs, r) := span_digits t in (46%N :: c :: fs, r)
            else ([], s2)
        | _ => ([], s2)
        end in
      let (exp, s4) :=
        match s3 with
        | e :: t =>
            if ((e =? 101) || (e =? 69))%N then
              let (sign, t') :=
                match t with
                | sg :: c :: u =>
                    if (((sg =? 43) || (sg =? 45)) && is_digit c)%N
                    then ([sg], c :: u) else ([], t)
                | _ => ([], t)
                end in
              match span_digits t' with
              | ([], _) => ([], s3)
              | (es, r) => (e :: sign ++ es, r)
              end
            else ([], s3)
        | [] => ([], s3)
        end in
      Some (neg, ds, frac ++ exp, s4)
  end.

Definition int_limit_error (n : nat) : exn :=
  Exception "ValueError"
    (lit "Exceeds the limit (4300 digits) for integer string conversion: value has "
     ++ dec n ++
     lit " digits; use sys.set_int_max_str_digits() to increase the limit").

Section Decoder.

Variable doc : str.

(** The index in [doc] at which the suffix [rest] starts. *)
Definition position (rest : str) : nat := List.length doc - List.length rest.

Definition error {A} (msg : string) (rest : str) : result A :=
  Raise (JSONDecodeError msg doc (position rest)).

(** The body of a string, after its opening quote at index [begin]. *)
Fixpoint scanstring (fuel : nat) (begin : nat) (s acc : str)
  : result (str * str) :=
  let unterminated :=
    Raise (JSONDecodeError "Unterminated string starting at" doc begin) in
  match fuel with
  | O => unterminated
  | S fuel' =>
      match s with
      | [] => unterminated
      | c :: t =>
          if (c =? 34)%N then Ok (rev acc, t)
          else if (c =? 92)%N then
            match t with
            | [] => unterminated
            | e :: t' =>
                if (e =? 117)%N then
                  match hex4 t' with
                  | None => error "Invalid \uXXXX escape" t
                  | Some (u, t'') =>
                      match surrogate_pair u t'' with
                      | Some (ch, t3) => scanstring fuel' begin t3 (ch :: acc)
                      | None => scanstring fuel' begin t'' (u :: acc)
                      end
                  end
                else
                  match unescape e with
                  | Some ch => scanstring fuel' begin t' (ch :: acc)
                  | None => error "Invalid \escape" s
                  end
            end
          else if (c <=? 31)%N then error "Invalid control character at" s
          else scanstring fuel' begin t (c :: acc)
      end
  end.

Definition parse_string (s : str) : result (str * str) :=
  match s with
  | 34%N :: t => scanstring (List.length t) (position s) t []
  | _ => error "Expecting property name enclosed in double quotes" s
  end.

Section Containers.

Variable scan : str -> result (pyval * str).

Fixpoint parse_array_items (n : nat) (s : str) (acc : list pyval)
  : result (pyval * str) :=
  match n with
  | O => error "Expecting value" s
  | S n' =>
      match scan s with
      | Raise e => Raise e
      | Ok (v, s1) =>
          let s2 := skip_ws s1 in
          match s2 with
          | 93%N :: t => Ok (PList (rev (v :: acc)), t)
          | 44%N :: t => parse_array_items n' (skip_ws t) (v :: acc)
          | _ => error "Expecting ',' delimiter" s2
          end
      end
  end.

Definition parse_array (s : str) : result (pyval * str) :=
  match skip_ws s with
  | 93%N :: t => Ok (PList [], t)
  | s' => parse_array_items (S (List.length s')) s' []
  end.

Fixpoint parse_object_pairs (n : nat) (s : str) (acc : dict pyval)
  : result (pyval * str) :=
  match n with
  | O => error "Expecting property name enclosed in double quotes" s
  | S n' =>
      match parse_string s with
      | Raise e => Raise e
      | Ok (key, s1) =>
          let s2 := skip_ws s1 in
          match s2 with
          | 58%N :: t =>
              match scan (skip_ws t) with
              | Raise e => Raise e
              | Ok (v, s3) =>
                  let acc' := dict_set key v acc in
                  let s4 := skip_ws s3 in
                  match s4 with
                  | 125%N :: t' => Ok (PDict acc', t')
                  | 44%N :: t' => parse_object_pairs n' (skip_ws t') acc'
                  | _ => error "Expecting ',' delimiter" s4
                  end
              end
          | _ => error "Expecting ':' delimiter" s2
          end
      end
  end.

Definition parse_object (s : str) : result (pyval * str) :=
  match skip_ws s with
  | 125%N :: t => Ok (PDict [], t)
  | s' => parse_object_pairs (S (List.length s')) s' []
  end.

End Containers.

Definition parse_number (s : str) : result (pyval * str) :=
  match match_number s with
  | None => error "Expecting value" s
  | Some (neg, ds, [], rest) =>
      if Nat.ltb 4300 (List.length ds)
      then Raise (int_limit_error (List.length ds))
      else Ok (PInt (if neg : bool then - digits_value ds
                     else digits_value ds)%Z, rest)
  | Some (neg, ds, tail, rest) =>
      Ok (PFloat ((if neg : bool then [45%N] else []) ++ ds ++ tail), rest)
  end.

Definition keyword (word : string) (v : pyval) (s : str)
  : result (pyval * str) :=
  if startswith s (lit word)
  then Ok (v, skipn (List.length (lit word)) s)
  else parse_number s.

Fixpoint scan_once (depth : nat) (s : str) : result (pyval * str) :=
  match depth with
  | O => error "Expecting value" s
  | S depth' =>
      match s with
      | [] => error "Expecting value" s
      | c :: t =>
          if (c =? 34)%N then
            match parse_string s with
            | Ok (x, rest) => Ok (PStr x, rest)
            | Raise e => Raise e
            end
          else if (c =? 123)%N then parse_object (scan_once depth') t
          else if (c =? 91)%N then parse_array (scan_once depth') t
          else if (c =? 110)%N then keyword "null" PNone s
          else if (c =? 116)%N then keyword "true" (PBool true) s
          else if (c =? 102)%N then keyword "false" (PBool false) s
          else if (c =? 78)%N then keyword "NaN" (PFloat (lit "NaN")) s
          else if (c =? 73)%N
          then keyword "Infinity" (PFloat (lit "Infinity")) s
          else if (c =? 45)%N
          then keyword "-Infinity" (PFloat (lit "-Infinity")) s
          else parse_number s
      end
  end.

End Decoder.

(** [json.loads(s)] *)
Definition loads (s : str) : result pyval :=
  if startswith s [65279%N]
  then Raise (JSONDecodeError "Unexpected UTF-8 BOM (decode using utf-8-sig)"
                s 0)
  else
    match scan_once s (S (List.length s)) (skip_ws s) with
    | Raise e => Raise e
    | Ok (v, rest) =>
        match skip_ws rest with
        | [] => Ok v
        | r => error s "Extra data" r
        end
    end.

Definition hex_char (n : N) : N := (if n <? 10 then 48 + n else 87 + n)%N.

Definition u_escape (c : N) : str :=
  (92 :: 117 :: hex_char (c / 4096 mod 16) :: hex_char (c / 256 mod 16)
      :: hex_char (c / 16 mod 16) :: hex_char (c mod 16) :: nil)%N.

Definition encode_char (c : N) : str :=
  (if c =? 34 then [92; 34]
   else if c =? 92 then [92; 92]
   else if c =? 10 then [92; 110]
   else if c =? 13 then [92; 114]
   else if c =? 9 then [92; 116]
   else if c =? 12 then [92; 102]
   else if c =? 8 then [92; 98]
   else if (32 <=? c) && (c <=? 126) then [c]
   else if c <? 65536 then u_escape c
   else u_escape (55296 + (c - 65536) / 1024 mod 1024)
        ++ u_escape (56320 + (c - 65536) mod 1024))%N.

(** A string literal, escaped to ASCII. *)
Definition encode_string (s : str) : str :=
  dquote ++ flat_map encode_char s ++ dquote.

(** [json.dumps(v)] *)
Fixpoint dumps (v : pyval) : str :=
  match v with
  | PNone => lit "null"
  | PBool true => lit "true"
  | PBool false => lit "false"
  | PInt n => lit (NilZero.string_of_int (Z.to_int n))
  | PFloat literal => literal
  | PStr s => encode_string s
  | PList xs => lit "[" ++ join (lit ", ") (List.map dumps xs) ++ lit "]"
  | PDict d =>
      lit "{" ++
      join (lit ", ")
        (List.map (fun kv : str * pyval =>
                     let (k, x) := kv in
                     encode_string k ++ lit ": " ++ dumps x) d) ++
      lit "}"
  end.

End Json.

(** ** Values the properties below are stated on *)

(** Is the [consistency_check] of a judgment one of the three words? *)
Definition consistency_ok (v : pyval) : bool :=
  match v with
  | PDict d =>
      match dict_get (lit "consistency_check") d with
      | Some (PStr c) =>
          str_eqb c (lit "Pass") || str_eqb c (lit "Fail")
          || str_eqb c (lit "Error")
      | _ => false
      end
  | _ => false
  end.

(** The record of the end-to-end scenario. *)
Definition sony : ProductInput :=
  {| name := lit "Sony WH-1000XM5";
     category := lit "Electronics";
     attributes := [ (lit "Color", lit "Midnight Blue");
                     (lit "Noise Cancellation", lit "Active");
                     (lit "Battery", lit "30 Hours") ];
     tone := Some (lit "Professional") |}.

(** A reply whose only choice has the given content. *)
Definition reply (body : str) : response :=
  {| choices := [ {| choice_message := {| message_content := Some body |} |} ] |}.

(** A well-formed JSON judgment whose check is neither Pass nor Fail. *)
Definition maybe_body : str :=
  lit "{" ++ dquote ++ lit "score" ++ dquote ++ lit ": 7, " ++
  dquote ++ lit "consistency_check" ++ dquote ++ lit ": " ++
  dquote ++ lit "Maybe" ++ dquote ++ lit ", " ++
  dquote ++ lit "tone_feedback" ++ dquote ++ lit ": " ++
  dquote ++ lit "fine" ++ dquote ++ lit "}".

Definition maybe_judgment : pyval :=
  PDict [ (lit "score", PInt 7);
          (lit "consistency_check", PStr (lit "Maybe"));
          (lit "tone_feedback", PStr (lit "fine")) ].

(** A well-formed JSON judgment as the evaluator prompt asks for it. *)
Definition pass_body : str :=
  lit "{" ++ dquote ++ lit "score" ++ dquote ++ lit ": 9, " ++
  dquote ++ lit "consistency_check" ++ dquote ++ lit ": " ++
  dquote ++ lit "Pass" ++ dquote ++ lit ", " ++
  dquote ++ lit "tone_feedback" ++ dquote ++ lit ": " ++
  dquote ++ lit "Crisp." ++ dquote ++ lit "}".

Definition pass_judgment : pyval :=
  PDict [ (lit "score", PInt 9);
          (lit "consistency_check", PStr (lit "Pass"));
          (lit "tone_feedback", PStr (lit "Crisp.")) ].

Definition connection_error : exn :=
  Exception "APIConnectionError" (lit "Connection error.").


(** The text with every line feed written as carriage return, line
    feed. *)
Definition crlf (text : str) : str :=
  flat_map (fun c => if N.eqb c newline then [13%N; 10%N] else [c]) text.

(** The record the script builds from the form and the parsed
    attributes. *)
Definition form_product (form : Form) (attrs : dict str) : ProductInput :=
  {| name := ui_p_name form; category := ui_cat form;
     attributes := attrs; tone := Some (ui_tone form) |}.

(** The line [generate_description] renders for one attribute. *)
Definition feature_line (kv : str * str) : str :=
  lit "- " ++ fst kv ++ lit ": " ++ snd kv.

(** The form as the widgets first show it, with the button pressed or
    not. *)
Definition default_form (pressed : bool) : Form :=
  {| ui_cat := lit "Electronics";
     ui_p_name := lit "Sony WH-1000XM5";
     ui_attr_input := default_attr_input;
     ui_tone := lit "Professional";
     ui_generate_btn := pressed |}.

(** A transport for concrete runs: one answer for the description
    request, one for the request that asks for a JSON object. *)
Definition scripted_create (description judgment : result response)
    (r : request) : result response :=
  match response_format r with
  | None => description
  | Some _ => judgment
  end.

Definition prose : str :=
  lit "Headphones in Midnight Blue with a 30 hour battery.".

Definition test_key : str := lit "gsk_test".

(** Stands in for [repr] in concrete runs that render no float and no
    container. *)
Definition no_repr (v : pyval) : str := [].

(** * Properties *)

Unset Implicit Arguments.

(** ** Strings *)

Lemma str_eqb_eq (a b : str) : str_eqb a b = true <-> a = b.
Proof.
  revert b; induction a as [|x a IH]; intros [|y b]; simpl;
    try (split; [discriminate | discriminate]); try tauto.
  rewrite andb_true_iff, N.eqb_eq, IH.
  split; [intros [-> ->]; reflexivity | intros E; inversion E; auto].
Qed.

Lemma str_eqb_refl (a : str) : str_eqb a a = true.
Proof. apply str_eqb_eq; reflexivity. Qed.

Lemma str_eqb_neq (a b : str) : str_eqb a b = false <-> a <> b.
Proof.
  rewrite <- str_eqb_eq. destruct (str_eqb a b); split; congruence.
Qed.

Lemma lstrip_head (s : str) :
  match lstrip s with
  | c :: _ => isspace c = false
  | [] => True
  end.
Proof.
  induction s as [|c t IH]; simpl; [exact I|].
  destruct (isspace c) eqn:E; [exact IH | exact E].
Qed.

Lemma lstrip_fixed (c : N) (t : str) :
  isspace c = false -> lstrip (c :: t) = c :: t.
Proof. intros E; simpl; rewrite E; reflexivity. Qed.

Lemma lstrip_idempotent (s : str) : lstrip (lstrip s) = lstrip s.
Proof.
  pose proof (lstrip_head s) as H.
  destruct (lstrip s) as [|c t]; [reflexivity | apply lstrip_fixed, H].
Qed.

Lemma lstrip_snoc (s : str) (c : N) :
  isspace c = false -> lstrip (s ++ [c]) = lstrip s ++ [c].
Proof.
  intros E; induction s as [|x s IH]; simpl.
  - rewrite E; reflexivity.
  - destruct (isspace x); [exact IH | reflexivity].
Qed.

Lemma rstrip_cons (c : N) (t : str) :
  isspace c = false -> rstrip (c :: t) = c :: rstrip t.
Proof.
  intros E; unfold rstrip; simpl.
  rewrite lstrip_snoc by exact E.
  rewrite rev_app_distr; reflexivity.
Qed.

Lemma rstrip_idempotent (s : str) : rstrip (rstrip s) = rstrip s.
Proof.
  unfold rstrip. rewrite rev_involutive, lstrip_idempotent. reflexivity.
Qed.

Lemma strip_idempotent (s : str) : strip (strip s) = strip s.
Proof.
  unfold strip.
  pose proof (lstrip_head s) as H.
  destruct (lstrip s) as [|c t]; [reflexivity|].
  rewrite (@rstrip_cons c t H), (@lstrip_fixed c _ H), <- (@rstrip_cons c t H).
  apply rstrip_idempotent.
Qed.

Lemma strip_blank (s : str) : forallb isspace s = true -> strip s = [].
Proof.
  intros H. unfold strip.
  assert (L : lstrip s = []).
  { induction s as [|c t IH]; [reflexivity|].
    simpl in *. apply andb_true_iff in H as [Hc Ht].
    rewrite Hc. exact (IH Ht). }
  rewrite L; reflexivity.
Qed.

(** [split(sep, 1)] on a line that contains [sep] cuts at the first one. *)
Lemma split_max1_cut (sep : N) (s : str) :
  contains_char sep s = true ->
  split_max1 sep s = [before_first sep s; after_first sep s].
Proof.
  unfold split_max1, contains_char.
  induction s as [|c t IH]; simpl; [discriminate|].
  rewrite (N.eqb_sym sep c).
  destruct (N.eqb c sep); simpl; [reflexivity|].
  intros H. specialize (IH H).
  destruct (find_char sep t) as [i|]; [|discriminate].
  injection IH as E1 E2.
  cbn [option_map firstn skipn]. rewrite E1, E2. reflexivity.
Qed.

Lemma split_max1_whole (sep : N) (s : str) :
  contains_char sep s = false -> split_max1 sep s = [s].
Proof.
  unfold split_max1, contains_char.
  induction s as [|c t IH]; simpl; [reflexivity|].
  rewrite (N.eqb_sym sep c).
  destruct (N.eqb c sep); simpl; [discriminate|].
  intros H. specialize (IH H).
  destruct (find_char sep t); [discriminate | reflexivity].
Qed.

(** ** Dicts *)

Lemma dict_get_set {V} (k k0 : str) (v0 : V) (d : dict V) :
  dict_get k (dict_set k0 v0 d)
  = if str_eqb k k0 then Some v0 else dict_get k d.
Proof.
  induction d as [|[k' v'] r IH]; simpl; [reflexivity|].
  destruct (str_eqb k0 k') eqn:E0; simpl.
  - apply str_eqb_eq in E0; subst k'.
    destruct (str_eqb k k0); reflexivity.
  - destruct (str_eqb k k') eqn:E1; [|exact IH].
    apply str_eqb_eq in E1; subst k'.
    destruct (str_eqb k k0) eqn:E2; [|reflexivity].
    apply str_eqb_eq in E2; subst k0.
    rewrite str_eqb_refl in E0; discriminate.
Qed.

Lemma keys_dict_set {V} (x k : str) (v : V) (d : dict V) :
  In x (keys (dict_set k v d)) <-> x = k \/ In x (keys d).
Proof.
  induction d as [|[k' v'] r IH]; simpl.
  - intuition congruence.
  - destruct (str_eqb k k') eqn:E; simpl.
    + apply str_eqb_eq in E; subst k'. intuition congruence.
    + rewrite IH. intuition congruence.
Qed.

Lemma NoDup_dict_set {V} (k : str) (v : V) (d : dict V) :
  NoDup (keys d) -> NoDup (keys (dict_set k v d)).
Proof.
  induction d as [|[k' v'] r IH]; simpl; intros H.
  - constructor; [intros [] | constructor].
  - inversion H as [|? ? Hnotin Hr]; subst.
    destruct (str_eqb k k') eqn:E; simpl.
    + constructor; assumption.
    + constructor; [|exact (IH Hr)].
      intros Hin. apply keys_dict_set in Hin as [->|Hin].
      * rewrite str_eqb_refl in E; discriminate.
      * exact (Hnotin Hin).
Qed.

Lemma dict_get_keys {V} (k : str) (d : dict V) :
  In k (keys d) <-> dict_get k d <> None.
Proof.
  induction d as [|[k' v'] r IH]; simpl; [tauto|].
  destruct (str_eqb k k') eqn:E.
  - apply str_eqb_eq in E. split; [discriminate | auto].
  - apply str_eqb_neq in E. rewrite <- IH. intuition congruence.
Qed.

Lemma last_value_keys (k : str) (es : list (str * str)) :
  In k (List.map fst es) <-> last_value k es <> None.
Proof.
  induction es as [|[k' v'] r IH]; simpl; [tauto|].
  destruct (last_value k r) eqn:E.
  - split; [discriminate|]. intros _. right. apply IH. discriminate.
  - destruct (str_eqb k k') eqn:E1.
    + apply str_eqb_eq in E1. split; [discriminate | auto].
    + apply str_eqb_neq in E1. split; [|congruence].
      intros [->|H]; [congruence | apply IH in H; congruence].
Qed.

(** ** The attribute parser *)

Lemma Forall_dict_set {V} (P : str * V -> Prop) (k : str) (v : V)
    (d : dict V) :
  Forall P d -> P (k, v) -> Forall P (dict_set k v d).
Proof.
  intros Hd Hkv. induction Hd as [|[k' v'] r Hx Hr IH]; simpl.
  - constructor; [exact Hkv | constructor].
  - destruct (str_eqb k k') eqn:E.
    + apply str_eqb_eq in E; subst k'. constructor; assumption.
    + constructor; assumption.
Qed.

Lemma parse_line_colon (d : dict str) (line : str) :
  contains_char colon line = true ->
  parse_line d line
  = Ok (dict_set (strip (before_first colon line))
          (strip (after_first colon line)) d).
Proof.
  intros H. unfold parse_line. rewrite H, (split_max1_cut _ _ H).
  reflexivity.
Qed.

Lemma parse_line_plain (d : dict str) (line : str) :
  contains_char colon line = false -> parse_line d line = Ok d.
Proof. intros H. unfold parse_line. rewrite H. reflexivity. Qed.

(** The loop from any starting dict: it finishes, every lookup is the
    last matching entry of the lines or else the starting dict's, and
    key uniqueness and trimming carry over. *)
Lemma parse_lines_spec (lines : list str) :
  forall d : dict str,
  exists d',
    parse_lines d lines = Ok d'
    /\ (forall k, dict_get k d'
                  = match last_value k (line_entries lines) with
                    | Some v => Some v
                    | None => dict_get k d
                    end)
    /\ (NoDup (keys d) -> NoDup (keys d'))
    /\ (Forall trimmed d -> Forall trimmed d').
Proof.
  induction lines as [|line rest IH]; intros d.
  - exists d. simpl. auto.
  - simpl. unfold line_entries in *. simpl.
    destruct (contains_char colon line) eqn:E.
    + rewrite (parse_line_colon d line E).
      destruct (IH (dict_set (strip (before_first colon line))
                      (strip (after_first colon line)) d))
        as (d' & Hrun & Hget & Hnd & Htr).
      exists d'. split; [exact Hrun|]. split; [|split].
      * intros k. rewrite Hget. simpl.
        destruct (last_value k _); [reflexivity|].
        rewrite dict_get_set. destruct (str_eqb k _); reflexivity.
      * intros H. apply Hnd, NoDup_dict_set, H.
      * intros H. apply Htr, Forall_dict_set; [exact H|].
        split; simpl; apply strip_idempotent.
    + rewrite (parse_line_plain d line E).
      destruct (IH d) as (d' & Hrun & Hget & Hnd & Htr).
      exists d'. auto.
Qed.

(** What the parser computes, for every input text. *)
Lemma parse_attributes_spec (text : str) :
  exists attrs,
    parse_attributes text = Ok attrs
    /\ (forall k, dict_get k attrs = last_value k (spec_entries text))
    /\ NoDup (keys attrs)
    /\ Forall trimmed attrs.
Proof.
  destruct (parse_lines_spec (split_char newline text) [])
    as (d' & Hrun & Hget & Hnd & Htr).
  exists d'. split; [exact Hrun|]. split; [|split].
  - intros k. rewrite Hget. unfold spec_entries.
    destruct (last_value k _); reflexivity.
  - apply Hnd. constructor.
  - apply Htr. constructor.
Qed.

Lemma line_entries_In (lines : list str) (line : str) :
  In line lines ->
  contains_char colon line = true ->
  In (strip (before_first colon line)) (List.map fst (line_entries lines)).
Proof.
  intros Hin Hc. unfold line_entries. rewrite map_map. simpl.
  apply (in_map (fun l => strip (before_first colon l))).
  apply filter_In. auto.
Qed.

Lemma lstrip_split (s : str) :
  exists l, s = l ++ lstrip s /\ forallb isspace l = true.
Proof.
  induction s as [|c t (l & E & Hl)]; [exists []; auto|].
  simpl. destruct (isspace c) eqn:Hc.
  - exists (c :: l). simpl. rewrite Hc, Hl, <- E. auto.
  - exists []. auto.
Qed.

Lemma forallb_rev_true {A} (f : A -> bool) (l : list A) :
  forallb f l = true -> forallb f (rev l) = true.
Proof.
  rewrite !forallb_forall. intros H x Hin. apply H, in_rev, Hin.
Qed.

Lemma rstrip_split (y : str) :
  exists r, y = rstrip y ++ r /\ forallb isspace r = true.
Proof.
  destruct (lstrip_split (rev y)) as (l & E & Hl).
  exists (rev l). split; [|exact (forallb_rev_true _ _ Hl)].
  unfold rstrip. rewrite <- rev_app_distr, <- E, rev_involutive.
  reflexivity.
Qed.

Lemma rstrip_last (y : str) (d : N) :
  rstrip y <> [] -> isspace (last (rstrip y) d) = false.
Proof.
  unfold rstrip. pose proof (lstrip_head (rev y)) as H.
  destruct (lstrip (rev y)) as [|a z]; simpl; [congruence|].
  intros _. rewrite last_last. exact H.
Qed.

(** What [strip] returns has no whitespace at either end. *)
Lemma strip_no_outer_space (s : str) : no_outer_space (strip s) = true.
Proof.
  unfold strip. pose proof (lstrip_head s) as H.
  destruct (lstrip s) as [|c t]; [reflexivity|].
  assert (Hne : rstrip (c :: t) <> [])
    by (rewrite (rstrip_cons c t H); discriminate).
  pose proof (rstrip_last (c :: t) c Hne) as Hlast.
  rewrite (rstrip_cons c t H) in *.
  unfold no_outer_space. rewrite H, Hlast. reflexivity.
Qed.

(** [strip] removes whitespace from the two ends, and nothing else. *)
Lemma strip_is_trim (s : str) : is_trim_of (strip s) s.
Proof.
  destruct (lstrip_split s) as (l & E & Hl).
  destruct (rstrip_split (lstrip s)) as (r & E2 & Hr).
  exists l, r. split; [|split; [exact Hl | split; [exact Hr|]]].
  - unfold strip. rewrite <- E2. exact E.
  - apply strip_no_outer_space.
Qed.

Lemma In_dict_get {V} (k : str) (v : V) (d : dict V) :
  NoDup (keys d) -> In (k, v) d -> dict_get k d = Some v.
Proof.
  induction d as [|[k' v'] r IH]; simpl; [intros _ []|].
  intros Hnd [E|Hin]; inversion Hnd as [|? ? Hnotin Hr]; subst.
  - injection E as -> ->. rewrite str_eqb_refl. reflexivity.
  - destruct (str_eqb k k') eqn:Ek; [|exact (IH Hr Hin)].
    apply str_eqb_eq in Ek. subst k'.
    exfalso. apply Hnotin. exact (in_map fst _ _ Hin).
Qed.

Lemma last_value_In (k v : str) (es : list (str * str)) :
  last_value k es = Some v -> In (k, v) es.
Proof.
  induction es as [|[k' v'] r IH]; simpl; [discriminate|].
  destruct (last_value k r) as [w|].
  - intros [= ->]. right. apply IH. reflexivity.
  - destruct (str_eqb k k') eqn:E; [|discriminate].
    apply str_eqb_eq in E. subst k'. intros [= ->]. left. reflexivity.
Qed.

Lemma Forall2_map_r {A B} (P : A -> B -> Prop) (f : A -> B) (l : list A) :
  (forall x, P x (f x)) -> Forall2 P l (List.map f l).
Proof. intros H. induction l; simpl; constructor; auto. Qed.

(** C1: for every input text the parser returns a dict in which a line
    without a colon contributes nothing and each line with a colon
    contributes the entry (trimmed text before the first colon, trimmed
    remainder); the value kept for a key is the one of its last line, the
    keys are exactly those of such lines and are unique.  Trimmed means:
    the text is whitespace, the entry's side, whitespace, and the side
    has no whitespace at either end.  The example input yields
    Color: Red, Size: 10 in. *)
Theorem parse_attributes_last_wins (text : str) :
  exists attrs,
    parse_attributes text = Ok attrs
    /\ (forall k, dict_get k attrs = last_value k (spec_entries text))
    /\ (forall k, In k (keys attrs) <-> In k (List.map fst (spec_entries text)))
    /\ NoDup (keys attrs)
    /\ Forall2
         (fun line entry =>
            is_trim_of (fst entry) (before_first colon line)
            /\ is_trim_of (snd entry) (after_first colon line))
         (filter (contains_char colon) (split_char newline text))
         (spec_entries text)
    /\ (forall k v,
          In (k, v) attrs ->
          exists line,
            In line (split_char newline text)
            /\ contains_char colon line = true
            /\ is_trim_of k (before_first colon line)
            /\ is_trim_of v (after_first colon line))
    /\ parse_attributes example_input
       = Ok [(lit "Color", lit "Red"); (lit "Size", lit "10 in")].
Proof.
  destruct (parse_attributes_spec text) as (attrs & Hrun & Hget & Hnd & _).
  exists attrs. split; [exact Hrun|]. split; [exact Hget|].
  split; [|split; [exact Hnd|]].
  { intros k. rewrite dict_get_keys, last_value_keys, Hget. tauto. }
  split; [|split; [|vm_compute; reflexivity]].
  - unfold spec_entries, line_entries. apply Forall2_map_r.
    intros line. split; apply strip_is_trim.
  - intros k v Hin.
    apply (In_dict_get k v attrs Hnd) in Hin. rewrite Hget in Hin.
    apply last_value_In in Hin. unfold spec_entries, line_entries in Hin.
    apply in_map_iff in Hin as (line & E & Hl).
    apply filter_In in Hl as [Hl Hc]. injection E as <- <-.
    exists line. split; [exact Hl|]. split; [exact Hc|].
    split; apply strip_is_trim.
Qed.

Lemma parse_attributes_last_wins_witness :
  exists attrs,
    parse_attributes (lit " Color : Blue  ") = Ok attrs
    /\ In (lit "Color", lit "Blue") attrs
    /\ exists line,
         In line (split_char newline (lit " Color : Blue  "))
         /\ contains_char colon line = true
         /\ is_trim_of (lit "Color") (before_first colon line)
         /\ is_trim_of (lit "Blue") (after_first colon line).
Proof.
  destruct (parse_attributes_last_wins (lit " Color : Blue  "))
    as (attrs & Hrun & _ & _ & _ & _ & Hfrom & _).
  assert (Hin : In (lit "Color", lit "Blue") attrs).
  { vm_compute in Hrun. injection Hrun as <-. left. reflexivity. }
  exists attrs. split; [exact Hrun|]. split; [exact Hin|].
  exact (Hfrom (lit "Color") (lit "Blue") Hin).
Defined.

(** C10: the parser succeeds on every input text, every key and value
    of the result equals its own strip and has no whitespace character
    at its start or at its end, and a line whose text before the first
    colon is empty or all whitespace still gives an entry, under the
    empty key (": Blue" parses to the empty key with value Blue). *)
Theorem parse_attributes_trimmed (text : str) :
  exists attrs,
    parse_attributes text = Ok attrs
    /\ (forall k v, In (k, v) attrs -> strip k = k /\ strip v = v)
    /\ (forall k v,
          In (k, v) attrs ->
          no_outer_space k = true /\ no_outer_space v = true)
    /\ (forall line,
          In line (split_char newline text) ->
          contains_char colon line = true ->
          forallb isspace (before_first colon line) = true ->
          In [] (keys attrs))
    /\ parse_attributes (lit ": Blue") = Ok [([], lit "Blue")].
Proof.
  destruct (parse_attributes_spec text) as (attrs & Hrun & Hget & _ & Htr).
  exists attrs. split; [exact Hrun|]. split; [|split; [|split]].
  - intros k v Hin. rewrite Forall_forall in Htr. exact (Htr _ Hin).
  - intros k v Hin. rewrite Forall_forall in Htr.
    destruct (Htr _ Hin) as [Ek Ev]. simpl in Ek, Ev.
    rewrite <- Ek, <- Ev. split; apply strip_no_outer_space.
  - intros line Hin Hc Hblank.
    apply dict_get_keys. rewrite Hget. apply last_value_keys.
    rewrite <- (strip_blank _ Hblank).
    apply line_entries_In; assumption.
  - vm_compute. reflexivity.
Qed.

Lemma parse_attributes_trimmed_witness :
  exists attrs,
    parse_attributes (lit "  : Blue ") = Ok attrs
    /\ In [] (keys attrs)
    /\ (strip [] = [] /\ strip (lit "Blue") = lit "Blue")
    /\ (no_outer_space [] = true /\ no_outer_space (lit "Blue") = true).
Proof.
  destruct (parse_attributes_trimmed (lit "  : Blue "))
    as (attrs & Hrun & Htrim & Hbare & Hblank & _).
  assert (Hin : In ([], lit "Blue") attrs).
  { vm_compute in Hrun. injection Hrun as <-. left. reflexivity. }
  exists attrs. split; [exact Hrun|]. split; [|split].
  - apply (Hblank (lit "  : Blue ")).
    + vm_compute. left. reflexivity.
    + vm_compute. reflexivity.
    + vm_compute. reflexivity.
  - exact (Htrim [] (lit "Blue") Hin).
  - exact (Hbare [] (lit "Blue") Hin).
Defined.

(** ** The prompt builder *)

Lemma general_prompt_present :
  dict_get (lit "General") base_prompts = Some general_prompt.
Proof. reflexivity. Qed.

Lemma get_default_missing {V} (d : dict V) (k : str) (default : V) :
  ~ In k (keys d) -> get_default d k default = default.
Proof.
  intros H. unfold get_default.
  destruct (dict_get k d) eqn:E; [|reflexivity].
  exfalso. apply H, dict_get_keys. congruence.
Qed.

(** C6: a category outside the four-entry table, such as Other, gets the
    General instruction followed by the tone clause, that is the prompt
    of category General. *)
Theorem unknown_category_uses_general (category : str) (tone : option str) :
  ~ In category [lit "Electronics"; lit "Fashion"; lit "Home & Kitchen";
                 lit "General"] ->
  keys base_prompts = [lit "Electronics"; lit "Fashion";
                       lit "Home & Kitchen"; lit "General"]
  /\ get_system_prompt category tone = get_system_prompt (lit "General") tone
  /\ get_system_prompt category tone
     = lit "You are a professional copywriter. Focus on benefits and value proposition."
       ++ lit " Write in a " ++ format_opt tone
       ++ lit " tone. Do not invent features not listed.".
Proof.
  intros H. split; [reflexivity|].
  unfold get_system_prompt.
  rewrite (get_default_missing base_prompts category general_prompt H).
  split; reflexivity.
Qed.

Lemma unknown_category_uses_general_witness :
  ~ In (lit "Other") [lit "Electronics"; lit "Fashion";
                      lit "Home & Kitchen"; lit "General"]
  /\ get_system_prompt (lit "Other") (Some (lit "Casual"))
     = get_system_prompt (lit "General") (Some (lit "Casual")).
Proof.
  assert (H : ~ In (lit "Other") [lit "Electronics"; lit "Fashion";
                                  lit "Home & Kitchen"; lit "General"]).
  { vm_compute. intros H.
    repeat (destruct H as [H|H]; [discriminate H|]). exact H. }
  split; [exact H|].
  apply (unknown_category_uses_general (lit "Other") (Some (lit "Casual")) H).
Defined.

(** C7: the system prompt depends on the category and the tone alone,
    through the table and the tone clause; for Electronics and Witty it
    contains the tech-copywriter instruction and ends with the tone
    clause, which names Witty. *)
Theorem system_prompt_electronics_witty :
  (forall category tone,
     get_system_prompt category tone
     = get_default base_prompts category general_prompt
       ++ lit " Write in a " ++ format_opt tone
       ++ lit " tone. Do not invent features not listed.")
  /\ get_system_prompt (lit "Electronics") (Some (lit "Witty"))
     = lit "You are a tech copywriter. Focus on specifications, performance, and compatibility. Write in a Witty tone. Do not invent features not listed."
  /\ contains (get_system_prompt (lit "Electronics") (Some (lit "Witty")))
       (lit "You are a tech copywriter. Focus on specifications, performance, and compatibility.")
     = true
  /\ endswith (get_system_prompt (lit "Electronics") (Some (lit "Witty")))
       (lit " Write in a Witty tone. Do not invent features not listed.")
     = true
  /\ contains (lit " Write in a Witty tone. Do not invent features not listed.")
       (lit "Witty")
     = true.
Proof.
  split; [reflexivity|].
  repeat split; vm_compute; reflexivity.
Qed.

(** ** The two clients *)

Section Clients.

Variable create : request -> result response.
Variable json_loads : str -> result pyval.
Variable json_dumps : pyval -> str.

(** [generate_description] issues its one request and never raises. *)
Lemma generate_description_run (product : ProductInput) (w : list event) :
  generate_description create product w
  = (Returned
       match create (description_request product) with
       | Raise e => Some (lit "Error: " ++ exn_str e)
       | Ok resp =>
           match first_choice resp with
           | Raise e => Some (lit "Error: " ++ exn_str e)
           | Ok c => message_content (choice_message c)
           end
       end,
     w ++ [CompletionRequest (description_request product)]).
Proof.
  unfold generate_description, try_except, chat_completions_create, bind,
    emit, lift, ret, raise.
  destruct (create (description_request product)) as [resp|e];
    [|reflexivity].
  destruct (first_choice resp); reflexivity.
Qed.

(** [evaluate_quality] issues its one request and never raises. *)
Lemma evaluate_quality_run (input_data : pyval) (generated_text : option str)
    (w : list event) :
  let req := evaluation_request json_dumps input_data generated_text in
  evaluate_quality create json_loads json_dumps input_data generated_text w
  = (Returned
       match create req with
       | Raise e => error_result e
       | Ok resp =>
           match first_choice resp with
           | Raise e => error_result e
           | Ok c =>
               match json_loads_content json_loads
                       (message_content (choice_message c)) with
               | Raise e => error_result e
               | Ok v => v
               end
           end
       end,
     w ++ [CompletionRequest req]).
Proof.
  unfold evaluate_quality, try_except, chat_completions_create, bind,
    emit, lift, ret, raise. cbv zeta.
  destruct (create _) as [resp|e]; [|reflexivity].
  destruct (first_choice resp) as [c|e]; [|reflexivity].
  destruct (json_loads_content _ _); reflexivity.
Qed.

(** C3: when the description request fails (the call raises, or the
    reply has no first choice), [generate_description] does not raise: it
    returns "Error: " followed by the failure detail. *)
Theorem generate_description_swallows (product : ProductInput) (e : exn) :
  create (description_request product) = Raise e
  \/ (exists resp, create (description_request product) = Ok resp
                   /\ first_choice resp = Raise e) ->
  fst (run (generate_description create product))
  = Returned (Some (lit "Error: " ++ exn_str e))
  /\ startswith (lit "Error: " ++ exn_str e) (lit "Error: ") = true.
Proof.
  intros H. unfold run. rewrite generate_description_run. simpl fst.
  split; [|vm_compute; reflexivity].
  destruct H as [H | (resp & H & Hc)]; rewrite H; [|rewrite Hc]; reflexivity.
Qed.

(** C2: when the evaluation request fails, or the body it returns does
    not parse as JSON, [evaluate_quality] does not raise: it returns the
    dict with score 0, consistency_check "Error" and the failure detail
    as tone_feedback. *)
Theorem evaluate_quality_swallows (input_data : pyval)
    (generated_text : option str) (e : exn) :
  let req := evaluation_request json_dumps input_data generated_text in
  create req = Raise e
  \/ (exists resp c,
        create req = Ok resp /\ first_choice resp = Ok c
        /\ json_loads_content json_loads (message_content (choice_message c))
           = Raise e) ->
  fst (run (evaluate_quality create json_loads json_dumps
              input_data generated_text))
  = Returned (error_result e)
  /\ method_get (error_result e) (lit "score") = Ok (PInt 0)
  /\ method_get (error_result e) (lit "consistency_check")
     = Ok (PStr (lit "Error"))
  /\ method_get (error_result e) (lit "tone_feedback")
     = Ok (PStr (exn_str e)).
Proof.
  intros req H. unfold run. rewrite evaluate_quality_run. simpl fst.
  fold req. split; [|repeat split].
  destruct H as [H | (resp & c & H & Hc & Hj)]; rewrite H;
    [|rewrite Hc, Hj]; reflexivity.
Qed.

(** C4: when the transport answers with a response, and that response
    has a first choice, [generate_description] returns that choice's
    message content as it is, and [evaluate_quality] returns the value
    [json.loads] gives for that content as it is. *)
Theorem mocked_transport_round_trip (resp : response) (c : choice) :
  first_choice resp = Ok c ->
  (forall product,
     create (description_request product) = Ok resp ->
     fst (run (generate_description create product))
     = Returned (message_content (choice_message c)))
  /\ (forall input_data generated_text body v,
        create (evaluation_request json_dumps input_data generated_text)
        = Ok resp ->
        message_content (choice_message c) = Some body ->
        json_loads body = Ok v ->
        fst (run (evaluate_quality create json_loads json_dumps
                    input_data generated_text))
        = Returned v).
Proof.
  intros Hc. split.
  - intros product H. unfold run. rewrite generate_description_run.
    rewrite H, Hc. reflexivity.
  - intros input_data generated_text body v H Hb Hv. unfold run.
    rewrite evaluate_quality_run. cbv zeta. rewrite H, Hc, Hb.
    simpl. rewrite Hv. reflexivity.
Qed.

(** C5, as the code has it: [evaluate_quality] always returns a value;
    its consistency_check is "Pass", "Fail" or "Error" unless the value
    is the parsed reply itself, returned unvalidated, and that reply
    carries something else there. *)
Theorem consistency_check_unvalidated (input_data : pyval)
    (generated_text : option str) :
  exists v,
    fst (run (evaluate_quality create json_loads json_dumps
                input_data generated_text))
    = Returned v
    /\ ((exists e, v = error_result e /\ consistency_ok v = true)
        \/ (exists resp c body,
              create (evaluation_request json_dumps input_data generated_text)
              = Ok resp
              /\ first_choice resp = Ok c
              /\ message_content (choice_message c) = Some body
              /\ json_loads body = Ok v)).
Proof.
  unfold run. rewrite evaluate_quality_run. cbv zeta. simpl fst.
  destruct (create _) as [resp|e] eqn:H;
    [|eexists; split; [reflexivity | left; eexists; split; reflexivity]].
  destruct (first_choice resp) as [c|e] eqn:Hc;
    [|eexists; split; [reflexivity | left; eexists; split; reflexivity]].
  destruct (message_content (choice_message c)) as [body|] eqn:Hb; simpl;
    [|eexists; split; [reflexivity | left; eexists; split; reflexivity]].
  destruct (json_loads body) as [v|e] eqn:Hv;
    [|eexists; split; [reflexivity | left; eexists; split; reflexivity]].
  exists v. split; [reflexivity|]. right. exists resp, c, body. auto.
Qed.

(** C8: for the Sony record, [generate_description] issues one request
    whose system prompt contains "tech copywriter" and "Professional"
    and whose user message contains the three feature lines as written. *)
Theorem sony_request_contents :
  exists system user,
    requests (snd (run (generate_description create sony)))
    = [ {| model := chat_model;
           messages := [ {| role := lit "system"; content := system |};
                         {| role := lit "user"; content := user |} ];
           temperature := Some "0.7"%string;
           response_format := None |} ]
    /\ contains system (lit "tech copywriter") = true
    /\ contains system (lit "Professional") = true
    /\ contains user (lit "- Color: Midnight Blue") = true
    /\ contains user (lit "- Noise Cancellation: Active") = true
    /\ contains user (lit "- Battery: 30 Hours") = true
    /\ parse_attributes default_attr_input = Ok (attributes sony).
Proof.
  exists (get_system_prompt (category sony) (tone sony)),
         (description_user_message sony).
  unfold run. rewrite generate_description_run.
  split; [reflexivity|].
  repeat split; vm_compute; reflexivity.
Qed.

End Clients.

(** ** The script *)

Section Script.

Variable create : request -> result response.
Variable json_loads : str -> result pyval.
Variable json_dumps : pyval -> str.
Variable py_repr : pyval -> str.

#[local] Abbreviation app_run environ_get form :=
  (run (app create json_loads json_dumps py_repr environ_get form)).

(** C9: with the credential absent from the environment the script
    shows the error and stops right there: its only effects are the page
    configuration, the error message and the stop, so no API client is
    built and no completion request goes out. *)
Theorem missing_key_halts (form : Form) :
  app_run None form
  = (Halted,
     [ StCall "set_page_config" [lit "AI Product Describer"; lit "wide"];
       StCall "error" [missing_key_message];
       StCall "stop" [] ])
  /\ existsb client_created (snd (app_run None form)) = false
  /\ requests (snd (app_run None form)) = []
  /\ app_run (Some []) form = app_run None form.
Proof. repeat split. Qed.

(** X11: with a credential and the button left alone, the client is
    built and the form is drawn; the run ends normally and nothing is
    requested, whatever the form holds. *)
Lemma idle_run (c : N) (k : str) (form : Form) :
  ui_generate_btn form = false ->
  fst (app_run (Some (c :: k)) form) = Returned tt
  /\ existsb client_created (snd (app_run (Some (c :: k)) form)) = true
  /\ requests (snd (app_run (Some (c :: k)) form)) = [].
Proof.
  intros H. unfold run, app, bind, widget, st, emit, ret. simpl.
  rewrite H. simpl. repeat split.
Qed.

(** X12: with a credential and the button pressed, exactly two requests
    go out whatever the transport answers: the description request
    first and the evaluation request, carrying the record and the
    description, second. *)
Lemma generate_run (c : N) (k : str) (form : Form) :
  ui_generate_btn form = true ->
  exists attrs description,
    parse_attributes (ui_attr_input form) = Ok attrs
    /\ let product :=
         {| name := ui_p_name form; category := ui_cat form;
            attributes := attrs; tone := Some (ui_tone form) |} in
       fst (run (generate_description create product)) = Returned description
       /\ requests (snd (app_run (Some (c :: k)) form))
          = [ description_request product;
              evaluation_request json_dumps (model_dump product) description ].
Proof.
  intros H.
  destruct (parse_attributes_spec (ui_attr_input form)) as (attrs & Hp & _).
  exists attrs. eexists. split; [exact Hp|]. cbv zeta.
  unfold run at 1. rewrite generate_description_run. split; [reflexivity|].
  unfold run, app, bind, widget, st, emit, ret. simpl.
  rewrite H, Hp. simpl.
  rewrite generate_description_run.
  rewrite evaluate_quality_run. cbv zeta.
  match goal with
  | |- context [method_get ?v (lit "score")] => generalize v
  end.
  intros v. unfold lift, raise, ret.
  destruct (method_get v (lit "score")); simpl; [|reflexivity].
  destruct (method_get v (lit "consistency_check")); simpl; [|reflexivity].
  destruct (eq_str _ _); simpl;
    destruct (method_get v (lit "tone_feedback")); reflexivity.
Qed.

End Script.

(** ** The properties on concrete runs *)

Lemma generate_description_swallows_witness :
  (fun _ : request => @Raise response connection_error)
    (description_request sony) = Raise connection_error
  /\ fst (run (generate_description (fun _ => Raise connection_error) sony))
     = Returned (Some (lit "Error: Connection error.")).
Proof.
  split; [reflexivity|].
  apply (generate_description_swallows
           (fun _ => Raise connection_error) sony connection_error).
  left. reflexivity.
Defined.

Lemma evaluate_quality_swallows_witness :
  Json.loads (lit "not json")
  = Raise (Exception "JSONDecodeError"
             (lit "Expecting value: line 1 column 1 (char 0)"))
  /\ fst (run (evaluate_quality (fun _ => Ok (reply (lit "not json")))
                 Json.loads Json.dumps (model_dump sony)
                 (Some (lit "Great headphones."))))
     = Returned
         (PDict [ (lit "score", PInt 0);
                  (lit "consistency_check", PStr (lit "Error"));
                  (lit "tone_feedback",
                    PStr (lit "Expecting value: line 1 column 1 (char 0)")) ]).
Proof.
  split; [vm_compute; reflexivity|].
  apply (evaluate_quality_swallows
           (fun _ => Ok (reply (lit "not json"))) Json.loads Json.dumps
           (model_dump sony) (Some (lit "Great headphones."))
           (Exception "JSONDecodeError"
              (lit "Expecting value: line 1 column 1 (char 0)"))).
  right. eexists. eexists.
  split; [reflexivity|]. split; [reflexivity|].
  vm_compute. reflexivity.
Defined.

Lemma mocked_transport_round_trip_witness :
  Json.loads pass_body = Ok pass_judgment
  /\ fst (run (generate_description (fun _ => Ok (reply pass_body)) sony))
     = Returned (Some pass_body)
  /\ fst (run (evaluate_quality (fun _ => Ok (reply pass_body))
                 Json.loads Json.dumps (model_dump sony) (Some pass_body)))
     = Returned pass_judgment.
Proof.
  assert (L : Json.loads pass_body = Ok pass_judgment)
    by (vm_compute; reflexivity).
  split; [exact L|].
  destruct (mocked_transport_round_trip
              (fun _ => Ok (reply pass_body)) Json.loads Json.dumps
              (reply pass_body)
              {| choice_message := {| message_content := Some pass_body |} |}
              eq_refl) as [Hgen Heval].
  split.
  - apply (Hgen sony). reflexivity.
  - apply (Heval (model_dump sony) (Some pass_body) pass_body pass_judgment);
      [reflexivity | reflexivity | exact L].
Defined.

(** C5 as stated fails: a reply that is valid JSON but carries "Maybe"
    comes back as the result, unchanged. *)
Lemma consistency_check_maybe :
  Json.loads maybe_body = Ok maybe_judgment
  /\ fst (run (evaluate_quality (fun _ => Ok (reply maybe_body))
                 Json.loads Json.dumps (model_dump sony)
                 (Some (lit "Great headphones."))))
     = Returned maybe_judgment
  /\ consistency_ok maybe_judgment = false
  /\ ~ (forall create input_data generated_text v,
          fst (run (evaluate_quality create Json.loads Json.dumps
                      input_data generated_text))
          = Returned v ->
          consistency_ok v = true).
Proof.
  assert (R : fst (run (evaluate_quality (fun _ => Ok (reply maybe_body))
                          Json.loads Json.dumps (model_dump sony)
                          (Some (lit "Great headphones."))))
              = Returned maybe_judgment)
    by (vm_compute; reflexivity).
  split; [vm_compute; reflexivity|].
  split; [exact R|]. split; [reflexivity|].
  intros H. specialize (H _ _ _ _ R). discriminate H.
Qed.

(** * Further properties *)

(** ** The attribute parser: order, emptiness, line endings *)

Lemma existsb_str_eqb (k : str) (l : list str) :
  existsb (str_eqb k) l = true <-> In k l.
Proof.
  rewrite existsb_exists. split.
  - intros (x & Hin & E). apply str_eqb_eq in E. subst x. exact Hin.
  - intros Hin. exists k. split; [exact Hin | apply str_eqb_refl].
Qed.




Lemma split_char_nonempty (sep : N) (s : str) : split_char sep s <> [].
Proof.
  destruct s as [|c t]; simpl; [discriminate|].
  destruct (N.eqb c sep); [discriminate|].
  destruct (split_char sep t); discriminate.
Qed.

Lemma lines_contain_colon (text : str) :
  existsb (contains_char colon) (split_char newline text)
  = contains_char colon text.
Proof.
  induction text as [|c t IH]; [reflexivity|].
  cbn [split_char].
  destruct (N.eqb c newline) eqn:E.
  - apply N.eqb_eq in E. subst c. cbn. exact IH.
  - pose proof (split_char_nonempty newline t) as Hne.
    destruct (split_char newline t) as [|h r]; [congruence|].
    unfold contains_char in *. cbn in *.
    rewrite <- IH. rewrite orb_assoc. reflexivity.
Qed.

Lemma filter_nil_existsb {A} (f : A -> bool) (l : list A) :
  filter f l = [] <-> existsb f l = false.
Proof.
  induction l as [|x l IH]; simpl; [tauto|].
  destruct (f x); simpl; [split; discriminate | exact IH].
Qed.

(** X2: the parser returns the empty dict exactly when the text holds
    no colon at all (the empty text included). *)
Theorem parse_attributes_empty_iff (text : str) :
  parse_attributes text = Ok [] <-> contains_char colon text = false.
Proof.
  destruct (parse_attributes_spec text) as (attrs & Hrun & Hget & _).
  rewrite Hrun, <- lines_contain_colon, <- filter_nil_existsb.
  unfold spec_entries, line_entries in Hget.
  split.
  - intros [= ->].
    destruct (filter _ _) as [|line rest]; [reflexivity|].
    specialize (Hget (strip (before_first colon line))).
    simpl in Hget. rewrite str_eqb_refl in Hget.
    destruct (last_value _ _); discriminate.
  - intros E. rewrite E in Hget. simpl in Hget.
    destruct attrs as [|[k v] r]; [reflexivity|].
    specialize (Hget k). simpl in Hget. rewrite str_eqb_refl in Hget.
    discriminate.
Qed.

Lemma lstrip_app (x y : str) :
  lstrip (x ++ y)
  = match lstrip x with
    | [] => lstrip y
    | _ :: _ => lstrip x ++ y
    end.
Proof.
  induction x as [|c t IH]; simpl; [reflexivity|].
  destruct (isspace c); [exact IH | reflexivity].
Qed.

Lemma rstrip_snoc_space (y : str) (c : N) :
  isspace c = true -> rstrip (y ++ [c]) = rstrip y.
Proof.
  intros E. unfold rstrip. rewrite rev_app_distr. simpl. rewrite E.
  reflexivity.
Qed.

Lemma strip_snoc_space (x : str) (c : N) :
  isspace c = true -> strip (x ++ [c]) = strip x.
Proof.
  intros E. unfold strip. rewrite lstrip_app.
  destruct (lstrip x) as [|a y] eqn:L.
  - simpl. rewrite E. reflexivity.
  - apply rstrip_snoc_space, E.
Qed.

Lemma contains_char_snoc (sep c : N) (l : str) :
  N.eqb sep c = false ->
  contains_char sep (l ++ [c]) = contains_char sep l.
Proof.
  intros E. unfold contains_char. rewrite existsb_app. simpl.
  rewrite E. rewrite !orb_false_r. reflexivity.
Qed.

Lemma cut_snoc (sep c : N) (l : str) :
  contains_char sep l = true ->
  before_first sep (l ++ [c]) = before_first sep l
  /\ after_first sep (l ++ [c]) = after_first sep l ++ [c].
Proof.
  unfold contains_char.
  induction l as [|x t IH]; simpl; [discriminate|].
  rewrite (N.eqb_sym sep x).
  destruct (N.eqb x sep); simpl; [auto|].
  intros H. destruct (IH H) as [-> ->]. auto.
Qed.

(** A carriage return at the end of a line is invisible to the loop
    body. *)
Lemma parse_line_cr (d : dict str) (line : str) :
  parse_line d (line ++ [13%N]) = parse_line d line.
Proof.
  destruct (contains_char colon line) eqn:E.
  - rewrite (parse_line_colon d line E).
    assert (E' : contains_char colon (line ++ [13%N]) = true)
      by (rewrite contains_char_snoc; [exact E | reflexivity]).
    rewrite (parse_line_colon d _ E').
    destruct (cut_snoc colon 13%N line E) as [-> ->].
    rewrite strip_snoc_space by reflexivity. reflexivity.
  - rewrite (parse_line_plain d line E).
    apply parse_line_plain.
    rewrite contains_char_snoc; [exact E | reflexivity].
Qed.

Lemma split_char_crlf (text : str) :
  Forall2 (fun a b => b = a \/ b = a ++ [13%N])
    (split_char newline text) (split_char newline (crlf text)).
Proof.
  induction text as [|c t IH]; [repeat constructor|].
  unfold crlf in *. cbn [flat_map split_char].
  destruct (N.eqb c newline) eqn:E.
  - cbn. constructor; [right; reflexivity | exact IH].
  - simpl ([c] ++ _). cbn [split_char]. rewrite E.
    inversion IH as [|h h' r r' Hh Hr Ea Eb]; subst.
    + exfalso. symmetry in H0. exact (split_char_nonempty _ _ H0).
    + constructor; [|exact Hr].
      destruct Hh as [->| ->]; [left | right]; reflexivity.
Qed.

Lemma parse_lines_crlf (l l' : list str) :
  Forall2 (fun a b => b = a \/ b = a ++ [13%N]) l l' ->
  forall d, parse_lines d l' = parse_lines d l.
Proof.
  induction 1 as [|a b r r' Hab Hr IH]; intros d; [reflexivity|].
  simpl. assert (E : parse_line d b = parse_line d a).
  { destruct Hab as [->| ->]; [reflexivity | apply parse_line_cr]. }
  rewrite E. destruct (parse_line d a); [apply IH | reflexivity].
Qed.

(** X3: writing the line breaks of the text as carriage return plus
    line feed changes nothing in the parsed dict. *)
Theorem parse_attributes_crlf (text : str) :
  parse_attributes (crlf text) = parse_attributes text.
Proof.
  unfold parse_attributes.
  apply parse_lines_crlf, split_char_crlf.
Qed.

(** ** The prompt builder: every category, every tone *)

Lemma dict_get_In {V} (k : str) (v : V) (d : dict V) :
  dict_get k d = Some v -> In (k, v) d.
Proof.
  induction d as [|[k' v'] r IH]; simpl; [discriminate|].
  destruct (str_eqb k k') eqn:E; [|auto].
  apply str_eqb_eq in E. subst k'. intros [= ->]. auto.
Qed.

(** X4: whatever the category and the tone, the system prompt is one of
    the four instructions of the table followed by the tone clause, and
    a category of the table gets its own instruction. *)
Theorem system_prompt_shape (category : str) (tone : option str) :
  exists instruction,
    In instruction (List.map snd base_prompts)
    /\ get_system_prompt category tone
       = instruction ++ lit " Write in a " ++ format_opt tone
         ++ lit " tone. Do not invent features not listed."
    /\ (forall p, dict_get category base_prompts = Some p -> instruction = p).
Proof.
  unfold get_system_prompt, get_default.
  destruct (dict_get category base_prompts) as [p|] eqn:E.
  - exists p. split; [|split; [reflexivity | congruence]].
    apply dict_get_In in E. exact (in_map snd _ _ E).
  - exists general_prompt. split; [|split; [reflexivity | discriminate]].
    exact (in_map snd _ _ (dict_get_In _ _ _ general_prompt_present)).
Qed.

(** X5: a record without a tone gets the prompt of the tone spelled
    None, and for a given category two different tone strings never
    give the same prompt. *)
Theorem system_prompt_tone (category : str) :
  get_system_prompt category None
  = get_system_prompt category (Some (lit "None"))
  /\ (forall t1 t2,
        get_system_prompt category (Some t1)
        = get_system_prompt category (Some t2) ->
        t1 = t2).
Proof.
  split; [reflexivity|].
  unfold get_system_prompt. intros t1 t2 H.
  apply app_inv_head in H. apply app_inv_head in H.
  exact (app_inv_tail _ _ _ H).
Qed.

Lemma system_prompt_tone_witness :
  get_system_prompt (lit "Fashion") (Some (lit "Casual"))
  = get_system_prompt (lit "Fashion") (Some (lit "Casual"))
  /\ lit "Casual" = lit "Casual".
Proof.
  split; [reflexivity|].
  apply (proj2 (system_prompt_tone (lit "Fashion"))). reflexivity.
Defined.

(** ** The messages: what they are guaranteed to carry *)

Lemma startswith_app (n r : str) : startswith (n ++ r) n = true.
Proof.
  induction n as [|x n IH]; simpl; [reflexivity|].
  rewrite N.eqb_refl. exact IH.
Qed.

Lemma startswith_app_l (h n c : str) :
  startswith h n = true -> startswith (h ++ c) n = true.
Proof.
  revert h. induction n as [|x n IH]; intros h; simpl; [reflexivity|].
  destruct h as [|y h]; simpl; [discriminate|].
  rewrite !andb_true_iff. intros [E H]. split; [exact E | exact (IH _ H)].
Qed.

Lemma contains_here (h n : str) :
  startswith h n = true -> contains h n = true.
Proof. intros H. destruct h; simpl; rewrite H; reflexivity. Qed.

Lemma contains_app_r (a x n : str) :
  contains x n = true -> contains (a ++ x) n = true.
Proof.
  intros H. induction a as [|c a IH]; simpl; [exact H|].
  rewrite IH. apply orb_true_r.
Qed.

Lemma contains_app_l (x c n : str) :
  contains x n = true -> contains (x ++ c) n = true.
Proof.
  induction x as [|y x IH]; simpl.
  - rewrite orb_false_r. intros H.
    apply contains_here. exact (startswith_app_l [] n c H).
  - rewrite !orb_true_iff. intros [H|H].
    + left. exact (startswith_app_l (y :: x) n c H).
    + right. exact (IH H).
Qed.

Lemma contains_join (sep p : str) (parts : list str) :
  In p parts -> contains (join sep parts) p = true.
Proof.
  induction parts as [|q rest IH]; simpl; [intros []|].
  intros [->|H].
  - destruct rest.
    + apply contains_here. rewrite <- (app_nil_r p) at 1.
      apply startswith_app.
    + apply contains_here, startswith_app.
  - destruct rest as [|q' rest']; [destruct H|].
    do 2 apply contains_app_r. exact (IH H).
Qed.

Lemma feature_line_in_message (product : ProductInput) (kv : str * str) :
  In kv (attributes product) ->
  contains (description_user_message product) (feature_line kv) = true.
Proof.
  intros Hin. unfold description_user_message. cbv zeta.
  do 13 apply contains_app_r. apply contains_app_l.
  apply contains_join.
  exact (in_map (fun kv => lit "- " ++ fst kv ++ lit ": " ++ snd kv)
           _ _ Hin).
Qed.

(** X6: for every record the user message of the description request
    names the product and the category and holds the line "- key: value"
    of every attribute of the record. *)
Theorem user_message_lists_features (product : ProductInput) :
  contains (description_user_message product)
    (lit "Product Name: " ++ name product) = true
  /\ contains (description_user_message product)
       (lit "Category: " ++ category product) = true
  /\ (forall kv,
        In kv (attributes product) ->
        contains (description_user_message product) (feature_line kv) = true).
Proof.
  unfold description_user_message. cbv zeta. split; [|split].
  - do 2 apply contains_app_r. rewrite app_assoc.
    apply contains_here, startswith_app.
  - do 6 apply contains_app_r. rewrite app_assoc.
    apply contains_here, startswith_app.
  - intros kv Hin. fold (description_user_message product).
    exact (feature_line_in_message product kv Hin).
Qed.

Lemma user_message_lists_features_witness :
  In (lit "Battery", lit "30 Hours") (attributes sony)
  /\ contains (description_user_message sony) (lit "- Battery: 30 Hours")
     = true.
Proof.
  assert (H : In (lit "Battery", lit "30 Hours") (attributes sony))
    by (right; right; left; reflexivity).
  split; [exact H|].
  exact (proj2 (proj2 (user_message_lists_features sony)) _ H).
Defined.

(** ** The two clients: effects and malformed replies *)

Section ClientEdges.

Variable create : request -> result response.
Variable json_loads : str -> result pyval.
Variable json_dumps : pyval -> str.

(** X7: the user message of the evaluation request carries the
    serialised record and the generated text as they are. *)
Theorem evaluation_message_embeds (input_data : pyval)
    (generated_text : option str) :
  contains (evaluation_user_message json_dumps input_data generated_text)
    (lit "INPUT DATA: " ++ json_dumps input_data) = true
  /\ contains (evaluation_user_message json_dumps input_data generated_text)
       (lit "GENERATED TEXT: " ++ format_opt generated_text) = true.
Proof.
  unfold evaluation_user_message. split.
  - do 2 apply contains_app_r. rewrite app_assoc.
    apply contains_here, startswith_app.
  - do 6 apply contains_app_r. rewrite app_assoc.
    apply contains_here, startswith_app.
Qed.

(** X8: whatever the transport does and whatever happened before, a
    call of either client returns normally and adds exactly one
    completion request to the effects: a failure is not retried. *)
Theorem one_request_per_call (product : ProductInput) (input_data : pyval)
    (generated_text : option str) (w : list event) :
  (exists description,
     generate_description create product w
     = (Returned description,
        w ++ [CompletionRequest (description_request product)]))
  /\ (exists judgment,
        evaluate_quality create json_loads json_dumps
          input_data generated_text w
        = (Returned judgment,
           w ++ [CompletionRequest
                   (evaluation_request json_dumps input_data generated_text)])).
Proof.
  split.
  - rewrite generate_description_run. eexists. reflexivity.
  - rewrite evaluate_quality_run. eexists. reflexivity.
Qed.

(** X9: a reply whose first choice has no content makes
    [generate_description] return None, not an error string, while
    [evaluate_quality] turns it into the error result with the
    TypeError text of [json.loads]. *)
Theorem reply_without_content (resp : response) (c : choice)
    (product : ProductInput) (input_data : pyval)
    (generated_text : option str) :
  first_choice resp = Ok c ->
  message_content (choice_message c) = None ->
  (create (description_request product) = Ok resp ->
   fst (run (generate_description create product)) = Returned None)
  /\ (create (evaluation_request json_dumps input_data generated_text)
      = Ok resp ->
      fst (run (evaluate_quality create json_loads json_dumps
                  input_data generated_text))
      = Returned
          (PDict [ (lit "score", PInt 0);
                   (lit "consistency_check", PStr (lit "Error"));
                   (lit "tone_feedback",
                     PStr (lit "the JSON object must be str, bytes or bytearray, not NoneType")) ])).
Proof.
  intros Hc Hn. split; intros H; unfold run.
  - rewrite generate_description_run, H, Hc. simpl. rewrite Hn. reflexivity.
  - rewrite evaluate_quality_run. cbv zeta. rewrite H, Hc, Hn. reflexivity.
Qed.

(** X10: a reply with an empty list of choices is swallowed by both
    clients as the IndexError it causes: the description becomes
    "Error: list index out of range" and the judgment the error result
    with that text. *)
Theorem reply_without_choices (resp : response) (product : ProductInput)
    (input_data : pyval) (generated_text : option str) :
  choices resp = [] ->
  (create (description_request product) = Ok resp ->
   fst (run (generate_description create product))
   = Returned (Some (lit "Error: list index out of range")))
  /\ (create (evaluation_request json_dumps input_data generated_text)
      = Ok resp ->
      fst (run (evaluate_quality create json_loads json_dumps
                  input_data generated_text))
      = Returned
          (PDict [ (lit "score", PInt 0);
                   (lit "consistency_check", PStr (lit "Error"));
                   (lit "tone_feedback",
                     PStr (lit "list index out of range")) ])).
Proof.
  intros Hc.
  assert (F : first_choice resp
              = Raise (Exception "IndexError" (lit "list index out of range")))
    by (unfold first_choice; rewrite Hc; reflexivity).
  split; intros H; unfold run.
  - rewrite generate_description_run, H, F. reflexivity.
  - rewrite evaluate_quality_run. cbv zeta. rewrite H, F. reflexivity.
Qed.

End ClientEdges.

Lemma reply_without_content_witness :
  fst (run (generate_description
              (fun _ => Ok {| choices :=
                   [ {| choice_message := {| message_content := None |} |} ] |})
              sony))
  = Returned None.
Proof.
  apply (reply_without_content
           (fun _ => Ok {| choices :=
                [ {| choice_message := {| message_content := None |} |} ] |})
           Json.loads Json.dumps
           {| choices :=
                [ {| choice_message := {| message_content := None |} |} ] |}
           {| choice_message := {| message_content := None |} |}
           sony (model_dump sony) None eq_refl eq_refl).
  reflexivity.
Defined.

Lemma reply_without_choices_witness :
  fst (run (evaluate_quality (fun _ => Ok {| choices := [] |})
              Json.loads Json.dumps (model_dump sony) None))
  = Returned
      (PDict [ (lit "score", PInt 0);
               (lit "consistency_check", PStr (lit "Error"));
               (lit "tone_feedback", PStr (lit "list index out of range")) ]).
Proof.
  apply (reply_without_choices
           (fun _ => Ok {| choices := [] |}) Json.loads Json.dumps
           {| choices := [] |} sony (model_dump sony) None eq_refl).
  reflexivity.
Defined.

(** ** The script with a credential *)

Section ScriptRuns.

Variable create : request -> result response.
Variable json_loads : str -> result pyval.
Variable json_dumps : pyval -> str.
Variable py_repr : pyval -> str.

#[local] Abbreviation app_run environ_get form :=
  (run (app create json_loads json_dumps py_repr environ_get form)).

(** The whole run after the button is pressed, in terms of what the
    parser and the two clients return. *)
Lemma pressed_run (c : N) (k : str) (form : Form) (attrs : dict str)
    (description : option str) (judgment : pyval) :
  ui_generate_btn form = true ->
  parse_attributes (ui_attr_input form) = Ok attrs ->
  fst (run (generate_description create (form_product form attrs)))
  = Returned description ->
  fst (run (evaluate_quality create json_loads json_dumps
              (model_dump (form_product form attrs)) description))
  = Returned judgment ->
  app_run (Some (c :: k)) form
  = let shown :=
      [ StCall "set_page_config" [lit "AI Product Describer"; lit "wide"];
        ClientCreated (lit "https://api.groq.com/openai/v1") (c :: k);
        StCall "title"
          [[128717%N; 65039%N] ++ lit " AI Product Description Generator"];
        StCall "header" [lit "Product Details"];
        StCall "selectbox" [lit "Category"];
        StCall "text_input" [lit "Product Name"];
        StCall "subheader" [lit "Attributes"];
        StCall "text_area" [lit "Features (Format: Key: Value)"];
        StCall "select_slider" [lit "Tone"];
        StCall "button" [[10024%N] ++ lit " Generate Description"];
        StCall "spinner" [lit "Drafting copy..."];
        CompletionRequest (description_request (form_product form attrs));
        StCall "columns" [];
        StCall "subheader" [lit "Generated Description"];
        StCall "markdown" [lit "> " ++ format_opt description];
        StCall "subheader" [lit "Quality Score"];
        StCall "spinner" [lit "Evaluating..."];
        CompletionRequest
          (evaluation_request json_dumps
             (model_dump (form_product form attrs)) description) ] in
    match method_get judgment (lit "score") with
    | Raise e => (Raised e, shown)
    | Ok score =>
        let metric :=
          StCall "metric"
            [lit "Consistency Score"; py_str py_repr score ++ lit "/10"] in
        match method_get judgment (lit "consistency_check") with
        | Raise e => (Raised e, shown ++ [metric])
        | Ok check =>
            let box :=
              if eq_str check (lit "Pass")
              then StCall "success" [[9989%N] ++ lit " Specs Match"]
              else StCall "error" [[10060%N] ++ lit " Missing Info"] in
            match method_get judgment (lit "tone_feedback") with
            | Raise e => (Raised e, shown ++ [metric; box])
            | Ok tone_feedback =>
                (Returned tt,
                 shown ++
                 [ metric; box;
                   StCall "info"
                     [lit "**Tone:** " ++ py_str py_repr tone_feedback] ])
            end
        end
    end.
Proof.
  intros Hb Hp Hd Hj. unfold form_product in *.
  assert (G : forall w,
             generate_description create
               {| name := ui_p_name form; category := ui_cat form;
                  attributes := attrs; tone := Some (ui_tone form) |} w
             = (Returned description,
                w ++ [CompletionRequest
                        (description_request
                           {| name := ui_p_name form; category := ui_cat form;
                              attributes := attrs;
                              tone := Some (ui_tone form) |})])).
  { intros w. unfold run in Hd. rewrite generate_description_run in Hd.
    cbn [fst] in Hd. rewrite generate_description_run.
    f_equal. exact Hd. }
  assert (E : forall w,
             evaluate_quality create json_loads json_dumps
               (model_dump
                  {| name := ui_p_name form; category := ui_cat form;
                     attributes := attrs; tone := Some (ui_tone form) |})
               description w
             = (Returned judgment,
                w ++ [CompletionRequest
                        (evaluation_request json_dumps
                           (model_dump
                              {| name := ui_p_name form;
                                 category := ui_cat form;
                                 attributes := attrs;
                                 tone := Some (ui_tone form) |})
                           description)])).
  { intros w. unfold run in Hj. rewrite evaluate_quality_run in Hj.
    cbv zeta in Hj. cbn [fst] in Hj. rewrite evaluate_quality_run.
    cbv zeta. f_equal. exact Hj. }
  unfold run, app, bind, widget, st, emit, ret. simpl.
  rewrite Hb, Hp. simpl. rewrite G, E.
  unfold lift, raise, ret.
  destruct (method_get judgment (lit "score")); simpl; [|reflexivity].
  destruct (method_get judgment (lit "consistency_check")); simpl;
    [|reflexivity].
  destruct (eq_str _ _); simpl;
    destruct (method_get judgment (lit "tone_feedback")); reflexivity.
Qed.

Lemma client_values (product : ProductInput) :
  exists description judgment,
    fst (run (generate_description create product)) = Returned description
    /\ fst (run (evaluate_quality create json_loads json_dumps
                   (model_dump product) description))
       = Returned judgment.
Proof.
  unfold run. eexists. eexists.
  rewrite generate_description_run, evaluate_quality_run.
  split; reflexivity.
Qed.

Ltac by_cases_on_judgment judgment :=
  cbv zeta;
  destruct (method_get judgment (lit "score"));
  [destruct (method_get judgment (lit "consistency_check"));
   [destruct (eq_str _ _);
    destruct (method_get judgment (lit "tone_feedback"))|]|].

(** X13: when the description request fails the script goes on: the
    error string is shown where the description would be, and the
    evaluation request is still issued, with that error string as the
    generated text. *)
Theorem failed_description_is_evaluated (c : N) (k : str) (form : Form)
    (attrs : dict str) (e : exn) :
  ui_generate_btn form = true ->
  parse_attributes (ui_attr_input form) = Ok attrs ->
  create (description_request (form_product form attrs)) = Raise e ->
  In (StCall "markdown" [lit "> Error: " ++ exn_str e])
     (snd (app_run (Some (c :: k)) form))
  /\ requests (snd (app_run (Some (c :: k)) form))
     = [ description_request (form_product form attrs);
         evaluation_request json_dumps (model_dump (form_product form attrs))
           (Some (lit "Error: " ++ exn_str e)) ].
Proof.
  intros Hb Hp He.
  assert (Hd : fst (run (generate_description create
                           (form_product form attrs)))
               = Returned (Some (lit "Error: " ++ exn_str e))).
  { unfold run. rewrite generate_description_run, He. reflexivity. }
  assert (Hj : exists judgment,
             fst (run (evaluate_quality create json_loads json_dumps
                         (model_dump (form_product form attrs))
                         (Some (lit "Error: " ++ exn_str e))))
             = Returned judgment).
  { unfold run. rewrite evaluate_quality_run. eexists. reflexivity. }
  destruct Hj as (judgment & Hj).
  rewrite (pressed_run c k form attrs _ judgment Hb Hp Hd Hj).
  by_cases_on_judgment judgment; (split; [simpl; tauto | reflexivity]).
Qed.

(** X14: when the evaluation reply parses to something that is not a
    JSON object, the script ends with the AttributeError of the [get]
    call on it, after both requests and before any score is shown. *)
Theorem non_object_judgment_crashes (c : N) (k : str) (form : Form)
    (attrs : dict str) (description : option str) (judgment : pyval) :
  ui_generate_btn form = true ->
  parse_attributes (ui_attr_input form) = Ok attrs ->
  fst (run (generate_description create (form_product form attrs)))
  = Returned description ->
  fst (run (evaluate_quality create json_loads json_dumps
              (model_dump (form_product form attrs)) description))
  = Returned judgment ->
  (forall d, judgment <> PDict d) ->
  fst (app_run (Some (c :: k)) form)
  = Raised (Exception "AttributeError"
              (squote ++ lit (type_name judgment) ++ squote ++
               lit " object has no attribute " ++
               squote ++ lit "get" ++ squote))
  /\ (forall args, ~ In (StCall "metric" args)
                       (snd (app_run (Some (c :: k)) form)))
  /\ requests (snd (app_run (Some (c :: k)) form))
     = [ description_request (form_product form attrs);
         evaluation_request json_dumps (model_dump (form_product form attrs))
           description ].
Proof.
  intros Hb Hp Hd Hj Hnd.
  rewrite (pressed_run c k form attrs description judgment Hb Hp Hd Hj).
  destruct judgment as [| | | | | |d]; try (exfalso; exact (Hnd d eq_refl));
    (split; [reflexivity | split; [|reflexivity]]);
    intros args Hin; simpl in Hin;
    repeat (destruct Hin as [Hin|Hin]; [discriminate Hin|]); exact Hin.
Qed.

(** X15: when the judgment is a JSON object the run ends normally and
    its last three calls are the metric with the object's score (None
    when it has none) over 10, then the success box when
    consistency_check is the string Pass and the error box otherwise,
    then the info box with the object's tone_feedback (None when it has
    none); the success box is shown only in the Pass case. *)
Theorem verdict_follows_consistency_check (c : N) (k : str) (form : Form)
    (attrs : dict str) (description : option str) (d : dict pyval) :
  ui_generate_btn form = true ->
  parse_attributes (ui_attr_input form) = Ok attrs ->
  fst (run (generate_description create (form_product form attrs)))
  = Returned description ->
  fst (run (evaluate_quality create json_loads json_dumps
              (model_dump (form_product form attrs)) description))
  = Returned (PDict d) ->
  fst (app_run (Some (c :: k)) form) = Returned tt
  /\ In (StCall "metric"
           [lit "Consistency Score";
            py_str py_repr (get_default d (lit "score") PNone) ++ lit "/10"])
        (snd (app_run (Some (c :: k)) form))
  /\ (exists earlier,
        snd (app_run (Some (c :: k)) form)
        = earlier ++
          [ StCall "metric"
              [lit "Consistency Score";
               py_str py_repr (get_default d (lit "score") PNone)
               ++ lit "/10"];
            (if eq_str (get_default d (lit "consistency_check") PNone)
                  (lit "Pass")
             then StCall "success" [[9989%N] ++ lit " Specs Match"]
             else StCall "error" [[10060%N] ++ lit " Missing Info"]);
            StCall "info"
              [lit "**Tone:** "
               ++ py_str py_repr
                    (get_default d (lit "tone_feedback") PNone)] ])
  /\ (In (StCall "success" [[9989%N] ++ lit " Specs Match"])
         (snd (app_run (Some (c :: k)) form))
      <-> eq_str (get_default d (lit "consistency_check") PNone) (lit "Pass")
          = true).
Proof.
  intros Hb Hp Hd Hj.
  rewrite (pressed_run c k form attrs description (PDict d) Hb Hp Hd Hj).
  cbv zeta. unfold method_get, get_default.
  split; [reflexivity|]. split; [simpl; tauto|]. split.
  - eexists. reflexivity.
  - destruct (eq_str _ _); simpl; split.
    + intros _. reflexivity.
    + intros _. tauto.
    + intros H. repeat (destruct H as [H|H]; [discriminate H|]). destruct H.
    + discriminate.
Qed.

(** X16: when the evaluation request fails the run still ends
    normally; its last three calls are the metric 0/10, the error box
    and the info box with the failure detail as the tone. *)
Theorem failed_evaluation_is_shown (c : N) (k : str) (form : Form)
    (attrs : dict str) (description : option str) (e : exn) :
  ui_generate_btn form = true ->
  parse_attributes (ui_attr_input form) = Ok attrs ->
  fst (run (generate_description create (form_product form attrs)))
  = Returned description ->
  create (evaluation_request json_dumps
            (model_dump (form_product form attrs)) description)
  = Raise e ->
  fst (app_run (Some (c :: k)) form) = Returned tt
  /\ In (StCall "metric" [lit "Consistency Score"; lit "0/10"])
        (snd (app_run (Some (c :: k)) form))
  /\ (exists earlier,
        snd (app_run (Some (c :: k)) form)
        = earlier ++
          [ StCall "metric" [lit "Consistency Score"; lit "0/10"];
            StCall "error" [[10060%N] ++ lit " Missing Info"];
            StCall "info" [lit "**Tone:** " ++ exn_str e] ]).
Proof.
  intros Hb Hp Hd He.
  assert (Hj : fst (run (evaluate_quality create json_loads json_dumps
                           (model_dump (form_product form attrs))
                           description))
               = Returned (error_result e)).
  { unfold run. rewrite evaluate_quality_run. cbv zeta. rewrite He.
    reflexivity. }
  rewrite (pressed_run c k form attrs description _ Hb Hp Hd Hj).
  split; [reflexivity | split; [simpl; tauto|]].
  eexists. reflexivity.
Qed.

(** X17: with a credential, whatever the form holds and whatever the
    transport does, a run either ends normally or ends with the
    AttributeError of calling [get] on a judgment that is not an
    object; it never stops early and lets no other exception out. *)
Theorem only_attribute_error_escapes (c : N) (k : str) (form : Form) :
  fst (app_run (Some (c :: k)) form) = Returned tt
  \/ exists judgment,
       (forall d, judgment <> PDict d)
       /\ fst (app_run (Some (c :: k)) form)
          = Raised (Exception "AttributeError"
                      (squote ++ lit (type_name judgment) ++ squote ++
                       lit " object has no attribute " ++
                       squote ++ lit "get" ++ squote)).
Proof.
  destruct (ui_generate_btn form) eqn:Hb.
  - destruct (parse_attributes_spec (ui_attr_input form))
      as (attrs & Hp & _).
    destruct (client_values (form_product form attrs))
      as (description & judgment & Hd & Hj).
    rewrite (pressed_run c k form attrs description judgment Hb Hp Hd Hj).
    destruct judgment as [| | | | | |d];
      try (left; cbv zeta; unfold method_get;
           destruct (eq_str _ _); reflexivity);
      (right; eexists; split; [|reflexivity]; discriminate).
  - left. unfold run, app, bind, widget, st, emit, ret. simpl.
    rewrite Hb. reflexivity.
Qed.

(** X18: every attribute the user typed reaches the model: for each key
    of the text, the user message of the first request holds the line
    "- key: value" with the value of the key's last line. *)
Theorem typed_attributes_reach_prompt (c : N) (k : str) (form : Form)
    (key value : str) :
  ui_generate_btn form = true ->
  last_value key (spec_entries (ui_attr_input form)) = Some value ->
  exists first rest system user,
    requests (snd (app_run (Some (c :: k)) form)) = first :: rest
    /\ messages first = [system; user]
    /\ role user = lit "user"
    /\ contains (content user) (lit "- " ++ key ++ lit ": " ++ value) = true.
Proof.
  intros Hb Hl.
  destruct (parse_attributes_spec (ui_attr_input form))
    as (attrs & Hp & Hget & _).
  destruct (client_values (form_product form attrs))
    as (description & judgment & Hd & Hj).
  assert (Hin : In (key, value) (attributes (form_product form attrs))).
  { apply dict_get_In. rewrite Hget. exact Hl. }
  pose proof (feature_line_in_message _ _ Hin) as Hc.
  rewrite (pressed_run c k form attrs description judgment Hb Hp Hd Hj).
  exists (description_request (form_product form attrs)),
         [evaluation_request json_dumps
            (model_dump (form_product form attrs)) description].
  eexists. eexists.
  split; [by_cases_on_judgment judgment; reflexivity|].
  split; [reflexivity|]. split; [reflexivity | exact Hc].
Qed.

End ScriptRuns.

(** X19: a failure of the description request is reported in band: the
    value returned and the effects are those of a transport that
    answered with the text "Error: " followed by the failure detail. *)
Theorem failure_is_in_band (product : ProductInput) (e : exn)
    (w : list event) :
  generate_description (fun _ => Raise e) product w
  = generate_description
      (fun _ => Ok (reply (lit "Error: " ++ exn_str e))) product w.
Proof. rewrite !generate_description_run. reflexivity. Qed.

(** ** The further properties on concrete runs *)

Lemma idle_run_witness :
  ui_generate_btn (default_form false) = false
  /\ fst (run (app (scripted_create (Ok (reply prose)) (Ok (reply pass_body)))
                 Json.loads Json.dumps no_repr (Some test_key)
                 (default_form false)))
     = Returned tt.
Proof.
  split; [reflexivity|].
  apply (idle_run (scripted_create (Ok (reply prose)) (Ok (reply pass_body)))
           Json.loads Json.dumps no_repr
           103%N (lit "sk_test") (default_form false)).
  reflexivity.
Defined.

Lemma generate_run_witness :
  ui_generate_btn (default_form true) = true
  /\ requests
       (snd (run (app (scripted_create (Ok (reply prose))
                         (Ok (reply pass_body)))
                    Json.loads Json.dumps no_repr (Some test_key)
                    (default_form true))))
     = [ description_request sony;
         evaluation_request Json.dumps (model_dump sony) (Some prose) ].
Proof.
  split; [reflexivity|].
  destruct (generate_run
              (scripted_create (Ok (reply prose)) (Ok (reply pass_body)))
              Json.loads Json.dumps no_repr
              103%N (lit "sk_test") (default_form true) eq_refl)
    as (attrs & description & Hp & Hd & Hr).
  assert (Ea : attrs = attributes sony)
    by (vm_compute in Hp; injection Hp as <-; reflexivity).
  subst attrs.
  assert (Ed : description = Some prose).
  { unfold run in Hd. rewrite generate_description_run in Hd.
    cbn in Hd. injection Hd as <-. reflexivity. }
  subst description. exact Hr.
Defined.

Lemma failed_description_is_evaluated_witness :
  In (StCall "markdown" [lit "> Error: Connection error."])
     (snd (run (app (scripted_create (Raise connection_error)
                       (Ok (reply pass_body)))
                  Json.loads Json.dumps no_repr (Some test_key)
                  (default_form true)))).
Proof.
  apply (failed_description_is_evaluated
           (scripted_create (Raise connection_error) (Ok (reply pass_body)))
           Json.loads Json.dumps no_repr
           103%N (lit "sk_test") (default_form true) (attributes sony)
           connection_error).
  - reflexivity.
  - vm_compute. reflexivity.
  - reflexivity.
Defined.

Lemma non_object_judgment_crashes_witness :
  Json.loads (lit "[1]") = Ok (PList [PInt 1])
  /\ fst (run (app (scripted_create (Ok (reply prose))
                      (Ok (reply (lit "[1]"))))
                 Json.loads Json.dumps no_repr (Some test_key)
                 (default_form true)))
     = Raised (Exception "AttributeError"
                 (lit "'list' object has no attribute 'get'")).
Proof.
  split; [vm_compute; reflexivity|].
  apply (non_object_judgment_crashes
           (scripted_create (Ok (reply prose)) (Ok (reply (lit "[1]"))))
           Json.loads Json.dumps no_repr
           103%N (lit "sk_test") (default_form true) (attributes sony)
           (Some prose) (PList [PInt 1])).
  - reflexivity.
  - vm_compute. reflexivity.
  - vm_compute. reflexivity.
  - vm_compute. reflexivity.
  - intros d H. discriminate H.
Defined.

Lemma verdict_follows_consistency_check_witness :
  exists earlier,
    snd (run (app (scripted_create (Ok (reply prose)) (Ok (reply pass_body)))
                Json.loads Json.dumps no_repr (Some test_key)
                (default_form true)))
    = earlier ++
      [ StCall "metric" [lit "Consistency Score"; lit "9/10"];
        StCall "success" [[9989%N] ++ lit " Specs Match"];
        StCall "info" [lit "**Tone:** Crisp."] ].
Proof.
  assert (Hp : parse_attributes (ui_attr_input (default_form true))
               = Ok (attributes sony)) by (vm_compute; reflexivity).
  assert (Hd : fst (run (generate_description
                           (scripted_create (Ok (reply prose))
                              (Ok (reply pass_body)))
                           (form_product (default_form true)
                              (attributes sony))))
               = Returned (Some prose)) by (vm_compute; reflexivity).
  assert (Hj : fst (run (evaluate_quality
                           (scripted_create (Ok (reply prose))
                              (Ok (reply pass_body)))
                           Json.loads Json.dumps
                           (model_dump (form_product (default_form true)
                                          (attributes sony)))
                           (Some prose)))
               = Returned
                   (PDict [ (lit "score", PInt 9);
                            (lit "consistency_check", PStr (lit "Pass"));
                            (lit "tone_feedback", PStr (lit "Crisp.")) ]))
    by (vm_compute; reflexivity).
  exact (proj1 (proj2 (proj2
    (verdict_follows_consistency_check
       (scripted_create (Ok (reply prose)) (Ok (reply pass_body)))
       Json.loads Json.dumps no_repr
       103%N (lit "sk_test") (default_form true) (attributes sony)
       (Some prose) _ eq_refl Hp Hd Hj)))).
Defined.

Lemma failed_evaluation_is_shown_witness :
  exists earlier,
    snd (run (app (scripted_create (Ok (reply prose))
                     (Raise connection_error))
                Json.loads Json.dumps no_repr (Some test_key)
                (default_form true)))
    = earlier ++
      [ StCall "metric" [lit "Consistency Score"; lit "0/10"];
        StCall "error" [[10060%N] ++ lit " Missing Info"];
        StCall "info" [lit "**Tone:** Connection error."] ].
Proof.
  assert (Hp : parse_attributes (ui_attr_input (default_form true))
               = Ok (attributes sony)) by (vm_compute; reflexivity).
  assert (Hd : fst (run (generate_description
                           (scripted_create (Ok (reply prose))
                              (Raise connection_error))
                           (form_product (default_form true)
                              (attributes sony))))
               = Returned (Some prose)) by (vm_compute; reflexivity).
  exact (proj2 (proj2
    (failed_evaluation_is_shown
       (scripted_create (Ok (reply prose)) (Raise connection_error))
       Json.loads Json.dumps no_repr
       103%N (lit "sk_test") (default_form true) (attributes sony)
       (Some prose) connection_error eq_refl Hp Hd eq_refl))).
Defined.

Lemma typed_attributes_reach_prompt_witness :
  last_value (lit "Battery") (spec_entries default_attr_input)
  = Some (lit "30 Hours")
  /\ exists first rest system user,
       requests (snd (run (app (scripted_create (Ok (reply prose))
                                  (Ok (reply pass_body)))
                             Json.loads Json.dumps no_repr (Some test_key)
                             (default_form true))))
       = first :: rest
       /\ messages first = [system; user]
       /\ role user = lit "user"
       /\ contains (content user) (lit "- Battery: 30 Hours") = true.
Proof.
  assert (H : last_value (lit "Battery") (spec_entries default_attr_input)
              = Some (lit "30 Hours")) by (vm_compute; reflexivity).
  split; [exact H|].
  exact (typed_attributes_reach_prompt
           (scripted_create (Ok (reply prose)) (Ok (reply pass_body)))
           Json.loads Json.dumps no_repr
           103%N (lit "sk_test") (default_form true)
           (lit "Battery") (lit "30 Hours") eq_refl H).
Defined.
